(** * The chart connection manager and the chart transition hook

    A shallow embedding of [chartConnectionManager.ts] (the class
    [ChartConnectionManager]) and of [initializeChart] from
    [useChartTransition.ts], with the properties of the connection
    lifecycle cache stated over it.

    Conventions of the embedding.
    - JavaScript numbers that hold millisecond timestamps and subscription
      counts are integers; they are [Z] here.
    - [Date.now()] is an explicit argument [now] of every operation that
      reads the clock; one synchronous block reads one value.
    - An [unsubscribe] closure is an opaque identifier; calling it appends
      an entry to the log [released] of the world.  Closures are taken to
      return normally and not to call back into the manager.
    - A [Map] is an association list in insertion order with unique keys,
      as [Map.prototype.entries] enumerates it.
    - [setTimeout] is a list of pending timers in the world; the event loop
      may run any pending timer that is due. *)

From Stdlib Require Import ZArith List String Ascii Bool Lia.
Import ListNotations.

Local Open Scope Z_scope.

(** ** JavaScript [Map] keyed by strings *)

Module JsMap.
Section Defs.
Context {V : Type}.

Definition t := list (string * V).

Definition empty : t := [].

Fixpoint get (k : string) (m : t) : option V :=
  match m with
  | [] => None
  | (k', v) :: r => if String.eqb k k' then Some v else get k r
  end.

(** [Map.prototype.set]: an existing key keeps its position, a new key is
    appended. *)
Fixpoint set (k : string) (v : V) (m : t) : t :=
  match m with
  | [] => [(k, v)]
  | (k', v') :: r =>
      if String.eqb k k' then (k, v) :: r else (k', v') :: set k v r
  end.

Definition delete (k : string) (m : t) : t :=
  filter (fun kv => negb (String.eqb k (fst kv))) m.

Definition entries (m : t) : list (string * V) := m.

Definition values (m : t) : list V := map snd m.

Definition keys (m : t) : list string := map fst m.
End Defs.
Arguments t : clear implicits.
End JsMap.

(** ** The manager *)

(** An [unsubscribe] closure, named by an identifier. *)
Definition callback := nat.

(** A pending [setTimeout]: the time from which it may run and the [delay]
    its closure captured. *)
Record Timer : Type := mkTimer { due : Z; captured_delay : Z }.

(** *** Values shared with the hook *)

(** A thrown value: an [Error] with its message, or anything else. *)
Inductive thrown : Type :=
| ThrownError (message : string)
| ThrownOther.

(** How a call of an injected capability ends. *)
Inductive outcome (A : Type) : Type :=
| Returned (a : A)
| Threw (e : thrown).
Arguments Returned {A} a.
Arguments Threw {A} e.

(** [err instanceof Error ? err.message : 'Failed to initialize chart'] *)
Definition errorMessage (e : thrown) : string :=
  match e with
  | ThrownError m => m
  | ThrownOther => "Failed to initialize chart"%string
  end.

(** Calls the hook makes to the injected capabilities and to the mutators of
    the manager, in order. *)
Inductive call : Type :=
| CallFetch (exchange symbol timeframe : string) (limit : Z)
| CallSubscribe
| CallRegister
| CallActivate.

Definition is_fetch (c : call) : bool :=
  match c with CallFetch _ _ _ _ => true | _ => false end.

Definition is_register (c : call) : bool :=
  match c with CallRegister => true | _ => false end.

Section Manager.

(** [CandleStick] is imported from ['@/types']; the manager only stores and
    copies candles, so the type is a parameter. *)
Context {CandleStick : Type}.

(** [interface ChartConnection].  [oid] is the identity of the JavaScript
    object (the object literal of [registerConnection] allocates a new one);
    the other fields are those of the interface. *)
Record ChartConnection : Type := mkConnection {
  oid : nat;
  symbol : string;
  exchange : string;
  timeframe : string;
  lastData : list CandleStick;
  lastUpdated : Z;
  isActive : bool;
  unsubscribe : callback;
  subscriptionCount : Z
}.

Definition with_lastData (c : ChartConnection) (d : list CandleStick) :=
  mkConnection (oid c) (symbol c) (exchange c) (timeframe c) d
    (lastUpdated c) (isActive c) (unsubscribe c) (subscriptionCount c).

Definition with_lastUpdated (c : ChartConnection) (n : Z) :=
  mkConnection (oid c) (symbol c) (exchange c) (timeframe c) (lastData c)
    n (isActive c) (unsubscribe c) (subscriptionCount c).

Definition with_isActive (c : ChartConnection) (b : bool) :=
  mkConnection (oid c) (symbol c) (exchange c) (timeframe c) (lastData c)
    (lastUpdated c) b (unsubscribe c) (subscriptionCount c).

Definition with_subscriptionCount (c : ChartConnection) (n : Z) :=
  mkConnection (oid c) (symbol c) (exchange c) (timeframe c) (lastData c)
    (lastUpdated c) (isActive c) (unsubscribe c) n.

(** The manager singleton together with what it acts on: the calls made to
    [unsubscribe] closures so far (object identity of the record, closure),
    the pending timers, and the allocation counter of record objects. *)
Record World : Type := mkWorld {
  connections : JsMap.t ChartConnection;
  released : list (nat * callback);
  timers : list Timer;
  nextId : nat
}.

Definition with_connections (w : World) (m : JsMap.t ChartConnection) :=
  mkWorld m (released w) (timers w) (nextId w).

Definition with_timers (w : World) (ts : list Timer) :=
  mkWorld (connections w) (released w) ts (nextId w).

(** [connection.unsubscribe()] *)
Definition call_unsubscribe (w : World) (c : ChartConnection) : World :=
  mkWorld (connections w) (released w ++ [(oid c, unsubscribe c)])
    (timers w) (nextId w).

(** [new ChartConnectionManager()] *)
Definition init : World := mkWorld JsMap.empty [] [] 0%nat.

(** [generateKey]: the template literal [`${exchange}-${symbol}-${timeframe}`]. *)
Definition generateKey (exchange symbol timeframe : string) : string :=
  (exchange ++ "-" ++ symbol ++ "-" ++ timeframe)%string.

Definition lookup (w : World) (exchange symbol timeframe : string)
  : option ChartConnection :=
  JsMap.get (generateKey exchange symbol timeframe) (connections w).

(** [registerConnection] returns the world and the record it returns. *)
Definition registerConnection (w : World) (now : Z)
    (exchange symbol timeframe : string)
    (initialData : list CandleStick) (unsubscribeCallback : callback)
  : World * ChartConnection :=
  let key := generateKey exchange symbol timeframe in
  match JsMap.get key (connections w) with
  | Some existingConnection =>
      let c1 := with_subscriptionCount existingConnection
                  (subscriptionCount existingConnection + 1) in
      let c2 := with_lastUpdated c1 now in
      (with_connections w (JsMap.set key c2 (connections w)), c2)
  | None =>
      let connection :=
        mkConnection (nextId w) symbol exchange timeframe initialData now
          true unsubscribeCallback 1 in
      (mkWorld (JsMap.set key connection (connections w)) (released w)
         (timers w) (S (nextId w)), connection)
  end.

(** [getCachedData]: [null] is [None]; the spread copy of an immutable list
    is the list. *)
Definition getCachedData (w : World) (now : Z)
    (exchange symbol timeframe : string) : option (list CandleStick) :=
  let key := generateKey exchange symbol timeframe in
  match JsMap.get key (connections w) with
  | Some connection =>
      if now - lastUpdated connection <? 30000
      then Some (lastData connection)
      else None
  | None => None
  end.

Definition updateCachedData (w : World) (now : Z)
    (exchange symbol timeframe : string) (data : list CandleStick) : World :=
  let key := generateKey exchange symbol timeframe in
  match JsMap.get key (connections w) with
  | Some connection =>
      let c1 := with_lastData connection data in
      let c2 := with_lastUpdated c1 now in
      with_connections w (JsMap.set key c2 (connections w))
  | None => w
  end.

Definition deactivateConnection (w : World)
    (exchange symbol timeframe : string) : World :=
  let key := generateKey exchange symbol timeframe in
  match JsMap.get key (connections w) with
  | Some connection =>
      let c1 := with_subscriptionCount connection
                  (subscriptionCount connection - 1) in
      let c2 := if subscriptionCount c1 <=? 0
                then with_isActive c1 false else c1 in
      with_connections w (JsMap.set key c2 (connections w))
  | None => w
  end.

Definition activateConnection (w : World) (now : Z)
    (exchange symbol timeframe : string) : World :=
  let key := generateKey exchange symbol timeframe in
  match JsMap.get key (connections w) with
  | Some connection =>
      let c1 := with_subscriptionCount connection
                  (subscriptionCount connection + 1) in
      let c2 := with_isActive c1 true in
      let c3 := with_lastUpdated c2 now in
      with_connections w (JsMap.set key c3 (connections w))
  | None => w
  end.

Definition removeConnection (w : World)
    (exchange symbol timeframe : string) : World :=
  let key := generateKey exchange symbol timeframe in
  match JsMap.get key (connections w) with
  | Some connection =>
      let c1 := with_subscriptionCount connection
                  (subscriptionCount connection - 1) in
      if subscriptionCount c1 <=? 0
      then
        let w1 := call_unsubscribe w c1 in
        with_connections w1 (JsMap.delete key (connections w1))
      else with_connections w (JsMap.set key c1 (connections w))
  | None => w
  end.

(** The condition tested by the sweep for one record. *)
Definition sweepable (now delay : Z) (connection : ChartConnection) : bool :=
  negb (isActive connection)
  && (subscriptionCount connection <=? 0)
  && (now - lastUpdated connection >? delay).

(** One iteration of the [for ... of this.connections.entries()] loop. *)
Definition sweepEntry (now delay : Z) (w : World)
    (entry : string * ChartConnection) : World :=
  let '(key, connection) := entry in
  if sweepable now delay connection
  then
    let w1 := call_unsubscribe w connection in
    with_connections w1 (JsMap.delete key (connections w1))
  else w.

(** The closure passed to [setTimeout]: [now] is read once, then the loop
    visits the entries; an iteration deletes at most the entry it visits, so
    the entries visited are those present when the loop starts. *)
Definition sweep (w : World) (now delay : Z) : World :=
  fold_left (sweepEntry now delay) (JsMap.entries (connections w)) w.

(** [cleanupInactiveConnections(delay = 5000)]: only schedules the closure.
    [setTimeout] treats a negative delay as 0. *)
Definition cleanupInactiveConnections (w : World) (now : Z)
    (delay : option Z) : World :=
  let delay := match delay with Some d => d | None => 5000 end in
  with_timers w (timers w ++ [mkTimer (now + Z.max delay 0) delay]).

Fixpoint remove_nth {A : Type} (i : nat) (l : list A) : list A :=
  match l, i with
  | [], _ => []
  | _ :: r, O => r
  | x :: r, S j => x :: remove_nth j r
  end.

(** The event loop runs the pending timer at index [i], if it is due. *)
Definition fireTimer (w : World) (now : Z) (i : nat) : World :=
  match nth_error (timers w) i with
  | Some tm =>
      if due tm <=? now
      then sweep (with_timers w (remove_nth i (timers w))) now
             (captured_delay tm)
      else w
  | None => w
  end.

Definition isConnectionActive (w : World)
    (exchange symbol timeframe : string) : bool :=
  let key := generateKey exchange symbol timeframe in
  match JsMap.get key (connections w) with
  | Some connection => isActive connection && (subscriptionCount connection >? 0)
  | None => false
  end.

Definition isConnectionActiveWithGracePeriod (w : World) (now : Z)
    (exchange symbol timeframe : string) (graceMs : option Z) : bool :=
  let graceMs := match graceMs with Some g => g | None => 300 end in
  let key := generateKey exchange symbol timeframe in
  match JsMap.get key (connections w) with
  | Some connection =>
      if subscriptionCount connection >? 0
      then now - lastUpdated connection <? graceMs
      else false
  | None => false
  end.

(** [connection?.subscriptionCount || 0]: a missing record and the number 0
    are the falsy cases. *)
Definition getSubscriptionCount (w : World)
    (exchange symbol timeframe : string) : Z :=
  let key := generateKey exchange symbol timeframe in
  match JsMap.get key (connections w) with
  | Some connection =>
      if subscriptionCount connection =? 0 then 0
      else subscriptionCount connection
  | None => 0
  end.

Definition cleanupAll (w : World) : World :=
  let w1 := fold_left call_unsubscribe (JsMap.values (connections w)) w in
  with_connections w1 JsMap.empty.

(** *** Sequences of manager calls

    What the rest of the application can do to the singleton, one call at a
    time, each with the clock value it reads.  [OpFireTimer] is the event
    loop running a pending sweep. *)
Inductive op : Type :=
| OpRegister (exchange symbol timeframe : string)
    (initialData : list CandleStick) (unsubscribeCallback : callback)
| OpUpdateCachedData (exchange symbol timeframe : string)
    (data : list CandleStick)
| OpDeactivate (exchange symbol timeframe : string)
| OpActivate (exchange symbol timeframe : string)
| OpRemove (exchange symbol timeframe : string)
| OpCleanupInactive (delay : option Z)
| OpFireTimer (i : nat)
| OpCleanupAll.

Definition step (w : World) (ev : Z * op) : World :=
  let '(now, o) := ev in
  match o with
  | OpRegister e s t d cb => fst (registerConnection w now e s t d cb)
  | OpUpdateCachedData e s t d => updateCachedData w now e s t d
  | OpDeactivate e s t => deactivateConnection w e s t
  | OpActivate e s t => activateConnection w now e s t
  | OpRemove e s t => removeConnection w e s t
  | OpCleanupInactive d => cleanupInactiveConnections w now d
  | OpFireTimer i => fireTimer w now i
  | OpCleanupAll => cleanupAll w
  end.

Definition run (evs : list (Z * op)) (w : World) : World :=
  fold_left step evs w.

(** The calls of the manager that take a key, at one key. *)
Definition keyed_ops (exchange symbol timeframe : string)
    (d : list CandleStick) (cb : callback) : list op :=
  [ OpRegister exchange symbol timeframe d cb;
    OpUpdateCachedData exchange symbol timeframe d;
    OpDeactivate exchange symbol timeframe;
    OpActivate exchange symbol timeframe;
    OpRemove exchange symbol timeframe ].

(** Observers of a world used in the statements. *)

(** The record object [id] is in the map. *)
Definition alive (id : nat) (w : World) : bool :=
  existsb (fun c => Nat.eqb (oid c) id) (JsMap.values (connections w)).

(** How many times the [unsubscribe] of record object [id] has been called. *)
Definition release_count (id : nat) (w : World) : nat :=
  List.length (filter (fun r => Nat.eqb (fst r) id) (released w)).

(** The log entry a call of [c.unsubscribe()] leaves. *)
Definition release_of (c : ChartConnection) : nat * callback :=
  (oid c, unsubscribe c).

(** [deactivateConnection] called [n] times in a row. *)
Fixpoint deactivate_times (n : nat) (w : World)
    (exchange symbol timeframe : string) : World :=
  match n with
  | O => w
  | S k =>
      deactivate_times k (deactivateConnection w exchange symbol timeframe)
        exchange symbol timeframe
  end.

(** A call that raises the count of an existing record: [activateConnection]
    or a further [registerConnection], with its clock value. *)
Inductive acquire : Type :=
| ByActivate (now : Z)
| ByRegister (now : Z) (initialData : list CandleStick)
    (unsubscribeCallback : callback).

Definition acquire_step (exchange symbol timeframe : string) (w : World)
    (a : acquire) : World :=
  match a with
  | ByActivate now => activateConnection w now exchange symbol timeframe
  | ByRegister now d cb =>
      fst (registerConnection w now exchange symbol timeframe d cb)
  end.

(** Every [deactivateConnection] of the sequence finds no record or a record
    whose count is at least 1. *)
Fixpoint deactivations_matched (evs : list (Z * op)) (w : World) : bool :=
  match evs with
  | [] => true
  | ev :: rest =>
      (match snd ev with
       | OpDeactivate e s t =>
           match lookup w e s t with
           | Some c => 1 <=? subscriptionCount c
           | None => true
           end
       | _ => true
       end)
      && deactivations_matched rest (step w ev)
  end.

(** ** The hook: [initializeChart] of [useChartTransition] *)

(** The four [useState] cells. *)
Record HookState : Type := mkHook {
  isLoading : bool;
  data : list CandleStick;
  error : option string;
  isReusingConnection : bool
}.

(** [useState(true)], [useState(initialData)], [useState(null)],
    [useState(false)] *)
Definition hook_init (initialData : list CandleStick) : HookState :=
  mkHook true initialData None false.

Definition setIsLoading (h : HookState) (b : bool) :=
  mkHook b (data h) (error h) (isReusingConnection h).

Definition setData (h : HookState) (d : list CandleStick) :=
  mkHook (isLoading h) d (error h) (isReusingConnection h).

Definition setError (h : HookState) (e : option string) :=
  mkHook (isLoading h) (data h) e (isReusingConnection h).

Definition setIsReusingConnection (h : HookState) (b : bool) :=
  mkHook (isLoading h) (data h) (error h) b.

(** Where [initializeChart] stands after its first synchronous block:
    returned (the reuse branch ran to the end of [finally]) or suspended at
    [await fetchDataFn(...)]. *)
Inductive phase : Type :=
| Finished (w : World) (h : HookState) (calls : list call)
| AwaitingFetch (h : HookState) (calls : list call).

(** From the entry of [initializeChart] to its return or to the [await]. *)
Definition initializeChart_enter (w : World) (h : HookState) (now : Z)
    (exchange symbol timeframe : string) : phase :=
  let h := setIsLoading h true in
  let h := setError h None in
  let cachedData := getCachedData w now exchange symbol timeframe in
  match cachedData with
  | Some cached =>
      if isConnectionActive w exchange symbol timeframe
      then
        let h := setData h cached in
        let h := setIsReusingConnection h true in
        let w := activateConnection w now exchange symbol timeframe in
        Finished w (setIsLoading h false) [CallActivate]
      else
        AwaitingFetch (setIsReusingConnection h false)
          [CallFetch exchange symbol timeframe 500]
  | None =>
      AwaitingFetch (setIsReusingConnection h false)
        [CallFetch exchange symbol timeframe 500]
  end.

(** From the settling of the fetch to the return: [w] is the manager as it
    is then, [fetched] how the fetch ended, [subscribed] how [onSubscribe()]
    would end. *)
Definition initializeChart_resume (w : World) (h : HookState) (now : Z)
    (exchange symbol timeframe : string)
    (fetched : outcome (list CandleStick)) (subscribed : outcome callback)
  : World * HookState * list call :=
  match fetched with
  | Threw err =>
      (w, setIsLoading (setError h (Some (errorMessage err))) false, [])
  | Returned freshData =>
      let h := setData h freshData in
      match subscribed with
      | Threw err =>
          (w, setIsLoading (setError h (Some (errorMessage err))) false,
           [CallSubscribe])
      | Returned unsubscribeFn =>
          let w := fst (registerConnection w now exchange symbol timeframe
                          freshData unsubscribeFn) in
          (w, setIsLoading h false, [CallSubscribe; CallRegister])
      end
  end.

(** [initializeChart] when nothing else touches the manager while the fetch
    is in flight; [now'] is the clock when the fetch settles. *)
Definition initializeChart (w : World) (h : HookState) (now : Z)
    (exchange symbol timeframe : string)
    (fetched : outcome (list CandleStick)) (subscribed : outcome callback)
    (now' : Z) : World * HookState * list call :=
  match initializeChart_enter w h now exchange symbol timeframe with
  | Finished w1 h1 calls => (w1, h1, calls)
  | AwaitingFetch h1 calls =>
      let '(w2, h2, calls2) :=
        initializeChart_resume w h1 now' exchange symbol timeframe
          fetched subscribed in
      (w2, h2, calls ++ calls2)
  end.

End Manager.

Arguments ChartConnection : clear implicits.
Arguments World : clear implicits.
Arguments HookState : clear implicits.
Arguments op : clear implicits.
Arguments acquire : clear implicits.
Arguments phase : clear implicits.

(** ** Letter case of keys *)

Definition lower_ascii (c : ascii) : ascii :=
  let n := nat_of_ascii c in
  if (Nat.leb 65 n && Nat.leb n 90)%bool then ascii_of_nat (n + 32) else c.

(** [String.prototype.toLowerCase] on ASCII text. *)
Fixpoint toLowerCase (s : string) : string :=
  match s with
  | EmptyString => EmptyString
  | String c r => String (lower_ascii c) (toLowerCase r)
  end.

(** Two identifiers that differ at most in letter case. *)
Definition same_ignoring_case (a b : string) : Prop :=
  toLowerCase a = toLowerCase b.

(** ** Well-formed worlds *)

Section Invariants.
Context {CandleStick : Type}.

(** The identities of the record objects in the map, in map order. *)
Definition record_ids (w : World CandleStick) : list nat :=
  map oid (JsMap.values (connections w)).

(** The identities of the record objects whose [unsubscribe] was called. *)
Definition released_ids (w : World CandleStick) : list nat :=
  map fst (released w).

(** What holds of the map of every manager: a key occurs once, distinct
    entries hold distinct objects, and every object was allocated. *)
Record wf (w : World CandleStick) : Prop := mkWf {
  wf_keys : NoDup (JsMap.keys (connections w));
  wf_ids : NoDup (record_ids w);
  wf_allocated : forall id, In id (record_ids w) -> (id < nextId w)%nat
}.

(** The bookkeeping of releases: an object is released at most once, only
    if it was allocated, never while it is in the map, and always once it
    has left the map. *)
Record ledger (w : World CandleStick) : Prop := mkLedger {
  ledger_wf : wf w;
  ledger_once : NoDup (released_ids w);
  ledger_allocated : forall id, In id (released_ids w) -> (id < nextId w)%nat;
  ledger_apart : forall id, In id (record_ids w) -> ~ In id (released_ids w);
  ledger_cover : forall id, (id < nextId w)%nat ->
                   In id (record_ids w) \/ In id (released_ids w)
}.

(** No record has a negative count. *)
Definition counts_nonneg (w : World CandleStick) : Prop :=
  Forall (fun c => 0 <= subscriptionCount c) (JsMap.values (connections w)).

End Invariants.

(** ** A concrete manager, with integers for candles *)

Definition demo_registered : World Z :=
  fst (registerConnection init 1000 "binance" "BTCUSDT" "1m" [1; 2] 7%nat).

Definition demo_deactivated : World Z :=
  deactivateConnection demo_registered "binance" "BTCUSDT" "1m".

(** Two records, the first deactivated, and a sweep pending with a delay of
    2000 ms (due at 3201). *)
Definition demo_pending : World Z :=
  run [ (1000, OpRegister "binance" "BTCUSDT" "1m" [1; 2] 7%nat);
        (1100, OpRegister "kraken" "ETHUSD" "5m" [3] 9%nat);
        (1200, OpDeactivate "binance" "BTCUSDT" "1m");
        (1201, OpCleanupInactive (Some 2000)) ] init.

(** One registration and two deactivations. *)
Definition demo_over_deactivated : list (Z * op Z) :=
  [ (1000, OpRegister "binance" "BTCUSDT" "1m" [1; 2] 7%nat);
    (1200, OpDeactivate "binance" "BTCUSDT" "1m");
    (1300, OpDeactivate "binance" "BTCUSDT" "1m") ].

(** One registration, one deactivation, then removals in excess. *)
Definition demo_over_removed : list (Z * op Z) :=
  [ (1000, OpRegister "binance" "BTCUSDT" "1m" [1; 2] 7%nat);
    (1200, OpDeactivate "binance" "BTCUSDT" "1m");
    (1300, OpRemove "binance" "BTCUSDT" "1m");
    (1400, OpRemove "binance" "BTCUSDT" "1m");
    (1500, OpDeactivate "binance" "BTCUSDT" "1m") ].

(** ** The rest of the hooks and the data service *)

Section Callers.
Context {CandleStick : Type}.

(** The cleanup of the unmount effect of [useChartTransition]: deactivate,
    then schedule a sweep with the default delay. *)
Definition unmountCleanup (w : World CandleStick) (now : Z)
    (exchange symbol timeframe : string) : World CandleStick :=
  cleanupInactiveConnections
    (deactivateConnection w exchange symbol timeframe) now None.

(** The effect on [data]: [if (data.length > 0) updateCachedData(...)]. *)
Definition dataChangedEffect (w : World CandleStick) (now : Z)
    (exchange symbol timeframe : string) (data : list CandleStick)
  : World CandleStick :=
  if (0 <? List.length data)%nat
  then updateCachedData w now exchange symbol timeframe data
  else w.

(** [initializeChart] of [useChartTransitionManager], up to the [await].
    [mounted] is [isMounted.current]; it cannot change inside one synchronous
    block, so the tests after the first one see the same value. *)
Definition managed_enter (w : World CandleStick) (h : HookState CandleStick)
    (now : Z) (mounted : bool) (exchange symbol timeframe : string)
  : phase CandleStick :=
  if negb mounted then Finished w h []
  else
    let h := setIsLoading h true in
    let h := setError h None in
    match getCachedData w now exchange symbol timeframe with
    | Some cached =>
        if isConnectionActive w exchange symbol timeframe
        then
          if mounted
          then
            let h := setData h cached in
            let h := setIsReusingConnection h true in
            let w := activateConnection w now exchange symbol timeframe in
            Finished w (if mounted then setIsLoading h false else h)
              [CallActivate]
          else Finished w h []
        else
          AwaitingFetch (if mounted then setIsReusingConnection h false else h)
            [CallFetch exchange symbol timeframe 500]
    | None =>
        AwaitingFetch (if mounted then setIsReusingConnection h false else h)
          [CallFetch exchange symbol timeframe 500]
    end.

(** The same function from the settling of the fetch on; [mounted] is
    [isMounted.current] at that time. *)
Definition managed_resume (w : World CandleStick) (h : HookState CandleStick)
    (now : Z) (mounted : bool) (exchange symbol timeframe : string)
    (fetched : outcome (list CandleStick)) (subscribed : outcome callback)
  : World CandleStick * HookState CandleStick * list call :=
  let catch (h : HookState CandleStick) (err : thrown) :=
    if mounted then setError h (Some (errorMessage err)) else h in
  let finally (h : HookState CandleStick) :=
    if mounted then setIsLoading h false else h in
  match fetched with
  | Threw err => (w, finally (catch h err), [])
  | Returned freshData =>
      if mounted
      then
        let h := setData h freshData in
        match subscribed with
        | Threw err => (w, finally (catch h err), [CallSubscribe])
        | Returned unsubscribeFn =>
            let w := fst (registerConnection w now exchange symbol timeframe
                            freshData unsubscribeFn) in
            (w, finally h, [CallSubscribe; CallRegister])
        end
      else (w, finally h, [])
  end.

(** The cleanup of the switching effect of [useChartTransitionManager]
    ([clearTimeout] aside): deactivate, then schedule a sweep after 2000 ms. *)
Definition managedCleanup (w : World CandleStick) (now : Z)
    (exchange symbol timeframe : string) : World CandleStick :=
  cleanupInactiveConnections
    (deactivateConnection w exchange symbol timeframe) now (Some 2000).

(** Observers for the statements about closures and keys. *)

(** The closures held by the records of the map. *)
Definition stored_callbacks (w : World CandleStick) : list callback :=
  map unsubscribe (JsMap.values (connections w)).

(** The closures that have been called. *)
Definition released_callbacks (w : World CandleStick) : list callback :=
  map snd (released w).

(** Some [registerConnection] of the sequence is passed the closure [cb]. *)
Definition passes_callback (cb : callback) (evs : list (Z * op CandleStick))
  : bool :=
  existsb
    (fun ev => match snd ev with
               | OpRegister _ _ _ _ cb' => Nat.eqb cb' cb
               | _ => false
               end) evs.

(** Some [registerConnection] of the sequence is for the key string [key]. *)
Definition registers_key (key : string) (evs : list (Z * op CandleStick))
  : bool :=
  existsb
    (fun ev => match snd ev with
               | OpRegister e s t _ _ => String.eqb (generateKey e s t) key
               | _ => false
               end) evs.

End Callers.

(** The string holds the separator of [generateKey]. *)
Fixpoint has_dash (s : string) : bool :=
  match s with
  | EmptyString => false
  | String c r => Ascii.eqb c "-"%char || has_dash r
  end.

(** *** The data service

    [exchangeRegistry] and [ExchangeModule] are imported from
    ['./exchanges/registry'] and ['./exchanges/types'].  A module is the
    methods the service calls, each with the way its call ends; the registry
    is the own properties of the object in insertion order, as [Object.keys]
    lists them.  [fetchLivePrice] returns a floating-point number and is left
    out.  [toLowerCase] is the ASCII one above. *)
Module DataService.
Section Defs.
Context {CandleStick : Type}.

Record ExchangeModule : Type := mkExchange {
  ex_getSymbols : outcome (list string);
  ex_fetchData : string -> string -> Z -> outcome (list CandleStick);
  ex_fetchHistoricalData :
    string -> string -> Z -> Z -> outcome (list CandleStick)
}.

Definition Registry := JsMap.t ExchangeModule.

(** [error instanceof Error ? error.message : 'Unknown error'] *)
Definition messageOf (e : thrown) : string :=
  match e with
  | ThrownError m => m
  | ThrownOther => "Unknown error"%string
  end.

Definition getExchange (exchangeRegistry : Registry) (exchangeName : string)
  : outcome ExchangeModule :=
  match JsMap.get (toLowerCase exchangeName) exchangeRegistry with
  | Some exchange => Returned exchange
  | None =>
      Threw (ThrownError
               ("Exchange '" ++ exchangeName
                ++ "' is not supported or does not exist in the registry.")%string)
  end.


Definition getSymbols (exchangeRegistry : Registry) (exchange : string)
  : outcome (list string) :=
  let rethrow (error : thrown) :=
    Threw (ThrownError
             ("Failed to fetch symbols for " ++ exchange ++ ": "
              ++ messageOf error)%string) in
  match getExchange exchangeRegistry exchange with
  | Threw error => rethrow error
  | Returned ex =>
      match ex_getSymbols ex with
      | Returned symbols => Returned symbols
      | Threw error => rethrow error
      end
  end.

(** [limit] is the optional parameter; [limit ?? 500]. *)
Definition fetchData (exchangeRegistry : Registry)
    (exchange symbol timeframe : string) (limit : option Z)
  : outcome (list CandleStick) :=
  let rethrow (error : thrown) :=
    Threw (ThrownError
             ("Failed to fetch data for " ++ symbol ++ ": "
              ++ messageOf error)%string) in
  match getExchange exchangeRegistry exchange with
  | Threw error => rethrow error
  | Returned ex =>
      match ex_fetchData ex symbol timeframe
              (match limit with Some l => l | None => 500 end) with
      | Returned candles => Returned candles
      | Threw error => rethrow error
      end
  end.

Definition fetchHistoricalData (exchangeRegistry : Registry)
    (exchange symbol interval : string) (startTime endTime : Z)
  : outcome (list CandleStick) :=
  let rethrow (error : thrown) :=
    Threw (ThrownError
             ("Failed to fetch historical data for " ++ symbol ++ ": "
              ++ messageOf error)%string) in
  match getExchange exchangeRegistry exchange with
  | Threw error => rethrow error
  | Returned ex =>
      match ex_fetchHistoricalData ex symbol interval startTime endTime with
      | Returned candles => Returned candles
      | Threw error => rethrow error
      end
  end.

End Defs.
Arguments ExchangeModule : clear implicits.
Arguments Registry : clear implicits.
End DataService.

(** A registry with one reachable module and one module under a key that is
    not in lower case. *)
Definition demo_exchange (answer : outcome (list Z))
  : DataService.ExchangeModule Z :=
  DataService.mkExchange (Returned ["BTCUSDT"; "ETHUSDT"]%string)
    (fun _ _ limit =>
       match answer with
       | Returned l => Returned (firstn (Z.to_nat limit) l)
       | Threw e => Threw e
       end)
    (fun _ _ _ _ => answer).

Definition demo_registry : DataService.Registry Z :=
  [ ("binance"%string, demo_exchange (Returned [1; 2; 3]));
    ("bybit"%string, demo_exchange (Threw (ThrownError "HTTP 503")));
    ("OKX"%string, demo_exchange (Returned [4])) ].

(** * Properties *)

(** ** Facts about the map *)

Module JsMapFacts.
Section Facts.
Context {V : Type}.
Implicit Types (m : JsMap.t V) (k : string) (v : V).

Lemma get_set_same k v m : JsMap.get k (JsMap.set k v m) = Some v.
Proof.
  induction m as [|[k' v'] r IH]; simpl.
  - now rewrite String.eqb_refl.
  - destruct (String.eqb_spec k k') as [->|Hne]; simpl.
    + now rewrite String.eqb_refl.
    + destruct (String.eqb_spec k k'); [contradiction|exact IH].
Qed.

Lemma get_set_other k k' v m :
  k <> k' -> JsMap.get k' (JsMap.set k v m) = JsMap.get k' m.
Proof.
  intros Hne. induction m as [|[k0 v0] r IH]; simpl.
  - destruct (String.eqb_spec k' k); [congruence|reflexivity].
  - destruct (String.eqb_spec k k0) as [->|Hk]; simpl.
    + destruct (String.eqb_spec k' k0); [congruence|reflexivity].
    + destruct (String.eqb_spec k' k0); [reflexivity|exact IH].
Qed.

Lemma get_In k v m : JsMap.get k m = Some v -> In (k, v) m.
Proof.
  induction m as [|[k' v'] r IH]; simpl; [discriminate|].
  destruct (String.eqb_spec k k') as [->|Hne].
  - intros [= ->]. now left.
  - intros H. right. auto.
Qed.

Lemma get_None_keys k m : JsMap.get k m = None -> ~ In k (JsMap.keys m).
Proof.
  induction m as [|[k' v'] r IH]; simpl; [tauto|].
  destruct (String.eqb_spec k k') as [->|Hne]; [discriminate|].
  intros H [E|HIn]; [congruence|]. now apply IH.
Qed.

Lemma In_get k v m :
  NoDup (JsMap.keys m) -> In (k, v) m -> JsMap.get k m = Some v.
Proof.
  induction m as [|[k' v'] r IH]; simpl; [tauto|].
  intros Hnd [E|HIn].
  - injection E as -> ->. now rewrite String.eqb_refl.
  - inversion Hnd as [|? ? Hnotin Hnd']; subst.
    destruct (String.eqb_spec k k') as [->|Hne]; [|now apply IH].
    exfalso. apply Hnotin. change k' with (fst (k', v)).
    now apply in_map.
Qed.

Lemma set_present k v v0 m :
  JsMap.get k m = Some v0 ->
  forall {B} (f : string * V -> B), f (k, v) = f (k, v0) ->
    map f (JsMap.set k v m) = map f m.
Proof.
  intros Hget B f Hf. induction m as [|[k' v'] r IH]; simpl in *.
  - discriminate.
  - destruct (String.eqb_spec k k') as [->|Hne]; simpl.
    + injection Hget as ->. now rewrite Hf.
    + f_equal. now apply IH.
Qed.

Lemma set_absent k v m :
  JsMap.get k m = None -> JsMap.set k v m = m ++ [(k, v)].
Proof.
  induction m as [|[k' v'] r IH]; simpl; [reflexivity|].
  destruct (String.eqb_spec k k') as [->|Hne]; [discriminate|].
  intros H. f_equal. now apply IH.
Qed.

Lemma get_filter (p : string * V -> bool) k m :
  NoDup (JsMap.keys m) ->
  JsMap.get k (filter p m) =
    match JsMap.get k m with
    | Some v => if p (k, v) then Some v else None
    | None => None
    end.
Proof.
  induction m as [|[k' v'] r IH]; simpl; [reflexivity|].
  intros Hnd. inversion Hnd as [|? ? Hnotin Hnd']; subst.
  specialize (IH Hnd').
  destruct (String.eqb_spec k k') as [->|Hne].
  - destruct (p (k', v')) eqn:Hp; simpl.
    + now rewrite String.eqb_refl.
    + rewrite IH. destruct (JsMap.get k' r) eqn:Hg; [|reflexivity].
      exfalso. apply Hnotin. apply get_In in Hg.
      change k' with (fst (k', v)). now apply in_map.
  - destruct (p (k', v')); simpl; [|exact IH].
    destruct (String.eqb_spec k k'); [contradiction|exact IH].
Qed.

Lemma get_delete_same k m : JsMap.get k (JsMap.delete k m) = None.
Proof.
  unfold JsMap.delete. induction m as [|[k' v'] r IH]; simpl; [reflexivity|].
  destruct (String.eqb_spec k k') as [->|Hne]; simpl; [exact IH|].
  destruct (String.eqb_spec k k'); [contradiction|exact IH].
Qed.

Lemma get_delete_other k k' m :
  k <> k' -> JsMap.get k' (JsMap.delete k m) = JsMap.get k' m.
Proof.
  intros Hne. unfold JsMap.delete.
  induction m as [|[k0 v0] r IH]; simpl; [reflexivity|].
  destruct (String.eqb_spec k k0) as [->|Hk]; simpl.
  - destruct (String.eqb_spec k' k0); [congruence|exact IH].
  - destruct (String.eqb_spec k' k0); [reflexivity|exact IH].
Qed.

(** With unique keys, the entries under a key are the one [get] finds. *)
Lemma filter_key k v m :
  NoDup (JsMap.keys m) -> JsMap.get k m = Some v ->
  filter (fun kv => String.eqb k (fst kv)) m = [(k, v)].
Proof.
  induction m as [|[k' v'] r IH]; simpl; [discriminate|].
  intros Hnd. inversion Hnd as [|? ? Hnotin Hnd']; subst.
  destruct (String.eqb_spec k k') as [->|Hne].
  - intros [= ->]. f_equal.
    clear IH Hnd. induction r as [|[k0 v0] r IH]; simpl; [reflexivity|].
    simpl in Hnotin. inversion Hnd' ; subst.
    destruct (String.eqb_spec k' k0) as [->|Hk]; [tauto|].
    apply IH; tauto.
  - intros Hg. now apply IH.
Qed.
End Facts.
End JsMapFacts.

(** ** Facts about lists *)

Section ListFacts.
Context {A B : Type}.

Lemma NoDup_map_filter (image : A -> B) (kept : A -> bool) (xs : list A)
    (Hnd : NoDup (map image xs)) :
  NoDup (map image (filter kept xs)).
Proof.
  induction xs as [|a l IH]; simpl; [constructor|].
  simpl in Hnd. inversion Hnd as [|? ? Hnotin Hnd']; subst.
  destruct (kept a); simpl; [|now apply IH].
  constructor; [|now apply IH].
  intros HIn. apply Hnotin. apply in_map_iff in HIn as (x & Hx & HIn).
  apply filter_In in HIn as [HIn _]. apply in_map_iff. eauto.
Qed.

Lemma NoDup_map_eq (f : A -> B) (l : list A) (a b : A) :
  NoDup (map f l) -> In a l -> In b l -> f a = f b -> a = b.
Proof.
  induction l as [|x l IH]; simpl; [tauto|].
  intros Hnd Ha Hb Hf. inversion Hnd as [|? ? Hnotin Hnd']; subst.
  destruct Ha as [->|Ha], Hb as [->|Hb]; auto.
  - exfalso. apply Hnotin. rewrite Hf. now apply in_map.
  - exfalso. apply Hnotin. rewrite <- Hf. now apply in_map.
Qed.

Lemma count_NoDup (eqb : B -> B -> bool) (l : list B) (x : B) :
  (forall y, eqb y x = true <-> y = x) ->
  NoDup l ->
  List.length (filter (fun y => eqb y x) l) = if existsb (fun y => eqb y x) l then 1%nat else 0%nat.
Proof.
  intros Heqb. induction l as [|y l IH]; simpl; intros Hnd; [reflexivity|].
  inversion Hnd as [|? ? Hnotin Hnd']; subst. specialize (IH Hnd').
  destruct (eqb y x) eqn:E; simpl; [|exact IH].
  apply Heqb in E. subst y.
  rewrite IH. destruct (existsb (fun y => eqb y x) l) eqn:Hex; [|reflexivity].
  exfalso. apply Hnotin. apply existsb_exists in Hex as (z & Hz & Ez).
  apply Heqb in Ez. now subst.
Qed.

End ListFacts.

(** ** The manager, call by call *)

Section Properties.
Context {CandleStick : Type}.
Implicit Types (w : World CandleStick) (c : ChartConnection CandleStick).
Implicit Types (exchange symbol timeframe : string).

Lemma lookup_set_same w exchange symbol timeframe c :
  lookup
    (with_connections w
       (JsMap.set (generateKey exchange symbol timeframe) c (connections w)))
    exchange symbol timeframe = Some c.
Proof. unfold lookup; simpl. apply JsMapFacts.get_set_same. Qed.

Lemma fold_call_unsubscribe (l : list (ChartConnection CandleStick)) w :
  let w' := fold_left call_unsubscribe l w in
  connections w' = connections w
  /\ released w' = released w ++ map release_of l
  /\ timers w' = timers w /\ nextId w' = nextId w.
Proof.
  revert w. induction l as [|c l IH]; intros w; simpl.
  - now rewrite app_nil_r.
  - destruct (IH (call_unsubscribe w c)) as (H1 & H2 & H3 & H4).
    simpl in *. rewrite H1, H2, H3, H4, <- app_assoc. auto.
Qed.

Lemma released_cleanupAll w :
  released (cleanupAll w)
  = released w ++ map release_of (JsMap.values (connections w)).
Proof.
  unfold cleanupAll; simpl.
  now destruct (fold_call_unsubscribe (JsMap.values (connections w)) w)
    as (_ & -> & _).
Qed.

(** What one [deactivateConnection] does to the record it finds. *)
Lemma deactivateConnection_found w exchange symbol timeframe c :
  lookup w exchange symbol timeframe = Some c ->
  let w' := deactivateConnection w exchange symbol timeframe in
  exists c',
    lookup w' exchange symbol timeframe = Some c'
    /\ subscriptionCount c' = subscriptionCount c - 1
    /\ isActive c'
       = (if subscriptionCount c - 1 <=? 0 then false else isActive c)
    /\ oid c' = oid c /\ unsubscribe c' = unsubscribe c
    /\ released w' = released w.
Proof.
  intros Hc. unfold deactivateConnection. unfold lookup in Hc. rewrite Hc.
  eexists. split; [apply lookup_set_same|].
  cbn [subscriptionCount with_subscriptionCount].
  destruct (subscriptionCount c - 1 <=? 0); cbn; auto.
Qed.

Lemma deactivateConnection_absent w exchange symbol timeframe :
  lookup w exchange symbol timeframe = None ->
  deactivateConnection w exchange symbol timeframe = w.
Proof.
  unfold lookup, deactivateConnection. now intros ->.
Qed.

Lemma deactivate_times_last n w exchange symbol timeframe :
  deactivate_times (S n) w exchange symbol timeframe
  = deactivateConnection (deactivate_times n w exchange symbol timeframe)
      exchange symbol timeframe.
Proof.
  revert w. induction n as [|n IH]; intros w; [reflexivity|].
  change (deactivate_times (S (S n)) w exchange symbol timeframe)
    with (deactivate_times (S n)
            (deactivateConnection w exchange symbol timeframe)
            exchange symbol timeframe).
  now rewrite IH.
Qed.

Lemma deactivate_times_found n w exchange symbol timeframe c :
  lookup w exchange symbol timeframe = Some c ->
  let w' := deactivate_times n w exchange symbol timeframe in
  exists c',
    lookup w' exchange symbol timeframe = Some c'
    /\ subscriptionCount c' = subscriptionCount c - Z.of_nat n
    /\ ((1 <= n)%nat -> subscriptionCount c' <= 0 -> isActive c' = false)
    /\ oid c' = oid c /\ unsubscribe c' = unsubscribe c
    /\ released w' = released w.
Proof.
  intros Hc. induction n as [|n IH].
  - exists c. cbn. repeat split; auto; lia.
  - cbv zeta in *. rewrite deactivate_times_last.
    destruct IH as (c1 & H1 & Hn & _ & Ho & Hu & Hr).
    destruct (deactivateConnection_found _ _ _ _ _ H1)
      as (c2 & H2 & Hn2 & Ha2 & Ho2 & Hu2 & Hr2).
    exists c2. repeat split; try congruence; try lia.
    intros _ Hle. rewrite Ha2.
    destruct (Z.leb_spec (subscriptionCount c1 - 1) 0); [reflexivity|lia].
Qed.

(** What a count-raising call does to the record it finds. *)
Lemma acquire_step_found w exchange symbol timeframe (a : acquire CandleStick) c :
  lookup w exchange symbol timeframe = Some c ->
  let w' := acquire_step exchange symbol timeframe w a in
  exists c',
    lookup w' exchange symbol timeframe = Some c'
    /\ subscriptionCount c' = subscriptionCount c + 1
    /\ oid c' = oid c /\ unsubscribe c' = unsubscribe c
    /\ released w' = released w.
Proof.
  intros Hc. unfold lookup in Hc.
  destruct a as [now|now d cb]; cbn;
    unfold activateConnection, registerConnection; rewrite Hc; cbn [fst];
    (eexists; split; [apply lookup_set_same|cbn; auto]).
Qed.

Lemma acquire_steps_found w exchange symbol timeframe
    (l : list (acquire CandleStick)) c :
  lookup w exchange symbol timeframe = Some c ->
  let w' := fold_left (acquire_step exchange symbol timeframe) l w in
  exists c',
    lookup w' exchange symbol timeframe = Some c'
    /\ subscriptionCount c' = subscriptionCount c + Z.of_nat (List.length l)
    /\ oid c' = oid c /\ unsubscribe c' = unsubscribe c
    /\ released w' = released w.
Proof.
  revert w c. induction l as [|a l IH]; intros w c Hc.
  - exists c. cbn. repeat split; auto; lia.
  - cbn [fold_left].
    destruct (acquire_step_found _ _ _ _ a _ Hc) as (c1 & H1 & Hn & Ho & Hu & Hr).
    destruct (IH _ _ H1) as (c2 & H2 & Hn2 & Ho2 & Hu2 & Hr2).
    exists c2. cbv zeta in *. repeat split; try congruence.
    rewrite Hn2, Hn. cbn [List.length]. lia.
Qed.

Lemma registerConnection_absent w now exchange symbol timeframe D (R : callback) :
  lookup w exchange symbol timeframe = None ->
  let w' := fst (registerConnection w now exchange symbol timeframe D R) in
  lookup w' exchange symbol timeframe
  = Some (mkConnection (nextId w) symbol exchange timeframe D now true R 1)
  /\ released w' = released w.
Proof.
  intros Hc. unfold lookup in *. unfold registerConnection. rewrite Hc.
  cbn. split; [apply JsMapFacts.get_set_same|reflexivity].
Qed.

(** C5.  Starting with no record for the key, a [registerConnection]
    followed by further [activateConnection] or [registerConnection] calls,
    N calls in all, and then N calls of [deactivateConnection], leave the
    record of the first call in the map with count 0 and [isActive] false,
    and no [unsubscribe] has been called.  On a key without a record
    [deactivateConnection] leaves the world as it is. *)
Theorem deactivateConnection_hysteresis
    w now exchange symbol timeframe D (R : callback)
    (more : list (acquire CandleStick)) :
  lookup w exchange symbol timeframe = None ->
  let N := S (List.length more) in
  let w1 := fst (registerConnection w now exchange symbol timeframe D R) in
  let w2 := fold_left (acquire_step exchange symbol timeframe) more w1 in
  let w3 := deactivate_times N w2 exchange symbol timeframe in
  (exists c,
     lookup w3 exchange symbol timeframe = Some c
     /\ subscriptionCount c = 0 /\ isActive c = false
     /\ oid c = nextId w /\ unsubscribe c = R)
  /\ getSubscriptionCount w3 exchange symbol timeframe = 0
  /\ isConnectionActive w3 exchange symbol timeframe = false
  /\ released w3 = released w
  /\ (forall w0 : World CandleStick,
        lookup w0 exchange symbol timeframe = None ->
        deactivateConnection w0 exchange symbol timeframe = w0).
Proof.
  intros Hnone N w1 w2 w3.
  destruct (registerConnection_absent w now _ _ _ D R Hnone) as (H1 & Hr1).
  fold w1 in H1, Hr1.
  destruct (acquire_steps_found _ _ _ _ more _ H1)
    as (c2 & H2 & Hn2 & Ho2 & Hu2 & Hr2).
  fold w2 in H2, Hr2.
  destruct (deactivate_times_found N _ _ _ _ _ H2)
    as (c3 & H3 & Hn3 & Ha3 & Ho3 & Hu3 & Hr3).
  fold w3 in H3, Hr3.
  cbn [subscriptionCount oid unsubscribe] in Hn2, Ho2, Hu2.
  assert (Hz : subscriptionCount c3 = 0) by (subst N; lia).
  assert (Hf : isActive c3 = false) by (apply Ha3; subst N; lia).
  split; [|split; [|split; [|split]]].
  - exists c3. repeat split; congruence.
  - unfold getSubscriptionCount. unfold lookup in H3. rewrite H3, Hz.
    reflexivity.
  - unfold isConnectionActive. unfold lookup in H3. rewrite H3, Hf.
    reflexivity.
  - congruence.
  - intros w0. apply deactivateConnection_absent.
Qed.

(** C7.  When the key already has a record, [registerConnection] returns
    that record with its count raised by one and its [lastUpdated] set to
    the clock, and stores it under the key; the record keeps its identity
    and its [unsubscribe], the other keys are untouched, nothing is
    allocated and no closure is called.  The closure passed in is dropped:
    the closures a later [cleanupAll] calls are those it would have called
    before. *)
Theorem registerConnection_existing_record
    w now exchange symbol timeframe D2 (R2 : callback) c :
  lookup w exchange symbol timeframe = Some c ->
  let w' := fst (registerConnection w now exchange symbol timeframe D2 R2) in
  let r := snd (registerConnection w now exchange symbol timeframe D2 R2) in
  lookup w' exchange symbol timeframe = Some r
  /\ subscriptionCount r = subscriptionCount c + 1
  /\ lastUpdated r = now
  /\ oid r = oid c
  /\ unsubscribe r = unsubscribe c
  /\ getSubscriptionCount w' exchange symbol timeframe
     = subscriptionCount c + 1
  /\ (forall e s t,
        generateKey e s t <> generateKey exchange symbol timeframe ->
        lookup w' e s t = lookup w e s t)
  /\ released w' = released w
  /\ nextId w' = nextId w
  /\ released (cleanupAll w') = released (cleanupAll w).
Proof.
  intros Hc w' r. subst w' r. unfold registerConnection.
  unfold lookup in Hc. rewrite Hc. cbn [fst snd].
  repeat split; try reflexivity.
  - apply lookup_set_same.
  - unfold getSubscriptionCount. cbn [connections with_connections].
    rewrite JsMapFacts.get_set_same. cbn.
    destruct (Z.eqb_spec (subscriptionCount c + 1) 0) as [E|E]; lia.
  - intros e s t Hne. unfold lookup; cbn [connections with_connections].
    apply JsMapFacts.get_set_other. congruence.
  - rewrite !released_cleanupAll. cbn [connections released with_connections].
    f_equal. unfold JsMap.values. rewrite !map_map.
    apply (JsMapFacts.set_present _ _ c); [exact Hc|reflexivity].
Qed.

(** C10.  On an existing record [registerConnection] changes the count and
    [lastUpdated] and no other field.  So a record brought to count 0 by
    [deactivateConnection], hence inactive, and registered again has a
    positive count and is still reported inactive. *)
Theorem registerConnection_existing_keeps_isActive
    w now exchange symbol timeframe D (R : callback) c :
  lookup w exchange symbol timeframe = Some c ->
  (let r := snd (registerConnection w now exchange symbol timeframe D R) in
   lookup (fst (registerConnection w now exchange symbol timeframe D R))
     exchange symbol timeframe = Some r
   /\ r = with_lastUpdated
            (with_subscriptionCount c (subscriptionCount c + 1)) now
   /\ isActive r = isActive c
   /\ lastData r = lastData c)
  /\ (subscriptionCount c = 1 ->
      let w1 := deactivateConnection w exchange symbol timeframe in
      let w2 :=
        fst (registerConnection w1 now exchange symbol timeframe D R) in
      getSubscriptionCount w1 exchange symbol timeframe = 0
      /\ option_map isActive (lookup w1 exchange symbol timeframe)
         = Some false
      /\ isConnectionActive w2 exchange symbol timeframe = false
      /\ getSubscriptionCount w2 exchange symbol timeframe = 1).
Proof.
  intros Hc. split.
  - unfold registerConnection. unfold lookup in Hc. rewrite Hc. cbn [fst snd].
    repeat split. apply lookup_set_same.
  - intros Hone w1 w2. subst w1 w2.
    unfold registerConnection, deactivateConnection, getSubscriptionCount,
      isConnectionActive, lookup in *.
    rewrite Hc. cbn [connections with_connections subscriptionCount
                     with_subscriptionCount].
    rewrite Hone. cbn -[JsMap.get JsMap.set].
    rewrite !JsMapFacts.get_set_same. cbn -[JsMap.get JsMap.set].
    rewrite !JsMapFacts.get_set_same. cbn. auto.
Qed.

(** C8.  [getCachedData] returns data exactly when the key has a record
    whose [lastUpdated] is less than 30000 ms before the clock, and the data
    is the record's [lastData]; from 30000 ms on it returns nothing although
    the record is still in the map. *)
Theorem getCachedData_freshness_window
    w now exchange symbol timeframe :
  (forall d,
     getCachedData w now exchange symbol timeframe = Some d <->
     exists c, lookup w exchange symbol timeframe = Some c
               /\ now - lastUpdated c < 30000 /\ d = lastData c)
  /\ (forall c, lookup w exchange symbol timeframe = Some c ->
        30000 <= now - lastUpdated c ->
        getCachedData w now exchange symbol timeframe = None).
Proof.
  unfold getCachedData, lookup. split.
  - intros d. destruct (JsMap.get _ _) as [c|]; split.
    + destruct (Z.ltb_spec (now - lastUpdated c) 30000); [|discriminate].
      intros [= <-]. eauto.
    + intros (c' & [= <-] & Hlt & ->).
      destruct (Z.ltb_spec (now - lastUpdated c) 30000); [reflexivity|lia].
    + discriminate.
    + intros (c' & Hc & _). discriminate.
  - intros c -> Hge.
    destruct (Z.ltb_spec (now - lastUpdated c) 30000); [lia|reflexivity].
Qed.

(** A call at one key leaves the record under any other key as it was. *)
Lemma keyed_op_frame w now exchange symbol timeframe D (R : callback) o e s t :
  In o (keyed_ops exchange symbol timeframe D R) ->
  generateKey exchange symbol timeframe <> generateKey e s t ->
  lookup (step w (now, o)) e s t = lookup w e s t.
Proof.
  intros HIn Hne. unfold keyed_ops in HIn. cbn [In] in HIn.
  unfold lookup.
  destruct HIn as [<-|[<-|[<-|[<-|[<-|[]]]]]]; cbn [step];
    unfold registerConnection, updateCachedData, deactivateConnection,
      activateConnection, removeConnection;
    destruct (JsMap.get (generateKey exchange symbol timeframe)
                (connections w)) as [c|]; cbn [fst];
    try reflexivity.
  - now apply JsMapFacts.get_set_other.
  - now apply JsMapFacts.get_set_other.
  - now apply JsMapFacts.get_set_other.
  - now apply JsMapFacts.get_set_other.
  - now apply JsMapFacts.get_set_other.
  - cbn [subscriptionCount with_subscriptionCount].
    destruct (subscriptionCount c - 1 <=? 0);
      cbn [connections with_connections call_unsubscribe].
    + now apply JsMapFacts.get_delete_other.
    + now apply JsMapFacts.get_set_other.
Qed.

End Properties.

(** ** Keys and letter case *)

Lemma length_toLowerCase (s : string) :
  String.length (toLowerCase s) = String.length s.
Proof. induction s as [|a s IH]; simpl; congruence. Qed.

Lemma append_inj_length (a b x y : string) :
  String.length a = String.length b ->
  (a ++ x)%string = (b ++ y)%string -> a = b /\ x = y.
Proof.
  revert b. induction a as [|ca a IH]; intros [|cb b]; simpl;
    try discriminate; auto.
  intros [= Hlen] [= -> Happ]. destruct (IH _ Hlen Happ) as [-> ->]. auto.
Qed.

Lemma length_append (a b : string) :
  String.length (a ++ b) = (String.length a + String.length b)%nat.
Proof. induction a as [|c a IH]; simpl; congruence. Qed.

Lemma append_inj_right (a b x : string) :
  (a ++ x)%string = (b ++ x)%string -> a = b.
Proof.
  intros H.
  assert (Hlen : String.length a = String.length b).
  { apply (f_equal String.length) in H. rewrite !length_append in H.
    lia. }
  now destruct (append_inj_length _ _ _ _ Hlen H).
Qed.

Lemma generateKey_same_case_inj (e1 s1 e2 s2 t : string) :
  same_ignoring_case e1 e2 -> same_ignoring_case s1 s2 ->
  generateKey e1 s1 t = generateKey e2 s2 t -> e1 = e2 /\ s1 = s2.
Proof.
  unfold same_ignoring_case, generateKey. intros He Hs Hk.
  apply (f_equal String.length) in He, Hs.
  rewrite !length_toLowerCase in He, Hs.
  destruct (append_inj_length _ _ _ _ He Hk) as [-> Hrest].
  split; [reflexivity|].
  cbn in Hrest. injection Hrest as Hrest.
  now destruct (append_inj_length _ _ _ _ Hs Hrest).
Qed.

(** C4, as the code has it.  Keys are compared as the strings
    [generateKey] builds, letter case included.  For exchanges and symbols
    that differ at most in letter case (and one timeframe), the two keys are
    one key exactly when exchange and symbol are the same strings; when
    they are not, registering under one spelling changes nothing that is
    observed under the other, and so for every other call that takes a
    key. *)
Theorem key_equality_is_case_sensitive {CandleStick : Type}
    (w : World CandleStick) (now : Z) (e1 s1 e2 s2 t : string)
    (D : list CandleStick) (R : callback) :
  same_ignoring_case e1 e2 -> same_ignoring_case s1 s2 ->
  (generateKey e1 s1 t = generateKey e2 s2 t <-> e1 = e2 /\ s1 = s2)
  /\ (~ (e1 = e2 /\ s1 = s2) ->
      let w' := fst (registerConnection w now e1 s1 t D R) in
      lookup w' e2 s2 t = lookup w e2 s2 t
      /\ getSubscriptionCount w' e2 s2 t = getSubscriptionCount w e2 s2 t
      /\ isConnectionActive w' e2 s2 t = isConnectionActive w e2 s2 t
      /\ (forall now', getCachedData w' now' e2 s2 t
                        = getCachedData w now' e2 s2 t)
      /\ (forall o now',
            In o (keyed_ops e1 s1 t D R) ->
            lookup (step w (now', o)) e2 s2 t = lookup w e2 s2 t)).
Proof.
  intros He Hs. split.
  - split; [now apply generateKey_same_case_inj|now intros [-> ->]].
  - intros Hdiff.
    assert (Hne : generateKey e1 s1 t <> generateKey e2 s2 t).
    { intros Hk. apply Hdiff. now apply generateKey_same_case_inj with t. }
    assert (Hreg : lookup (fst (registerConnection w now e1 s1 t D R)) e2 s2 t
                   = lookup w e2 s2 t).
    { apply (keyed_op_frame w now e1 s1 t D R (OpRegister e1 s1 t D R));
        [now left|exact Hne]. }
    cbv zeta. unfold getSubscriptionCount, isConnectionActive, getCachedData.
    unfold lookup in Hreg. rewrite Hreg. repeat split; auto.
    intros o now' HIn.
    now apply (keyed_op_frame w now' e1 s1 t D R o e2 s2 t).
Qed.

(** ** The hook *)

Section HookProperties.
Context {CandleStick : Type}.
Implicit Types (w : World CandleStick) (h : HookState CandleStick).
Implicit Types (exchange symbol timeframe : string).

(** The first block of [initializeChart] either returns through the reuse
    branch or stops at the fetch, having called nothing else. *)
Lemma initializeChart_enter_awaiting w h now exchange symbol timeframe h1 calls :
  initializeChart_enter w h now exchange symbol timeframe
  = AwaitingFetch h1 calls ->
  h1 = setIsReusingConnection (setError (setIsLoading h true) None) false
  /\ calls = [CallFetch exchange symbol timeframe 500].
Proof.
  unfold initializeChart_enter.
  destruct (getCachedData w now exchange symbol timeframe);
    [destruct (isConnectionActive w exchange symbol timeframe)|];
    try discriminate; intros [= <- <-]; auto.
Qed.

(** C9.  When [initializeChart] takes the fetch branch and the fetch throws,
    the hook ends with [error] set to the message and [isLoading] false, its
    data as before, and the manager, whatever it has become while the fetch
    was in flight, is left as it is: [registerConnection] is not called.  The
    same holds when the fetch succeeds and [onSubscribe] throws;
    [registerConnection] is called only after both have returned. *)
Theorem fetch_failure_leaves_registry_unchanged
    w h now exchange symbol timeframe h1 calls1
    (w' : World CandleStick) (now' : Z) (err : thrown)
    (subscribed : outcome callback) :
  initializeChart_enter w h now exchange symbol timeframe
  = AwaitingFetch h1 calls1 ->
  (let '(w2, h2, calls2) :=
     initializeChart_resume w' h1 now' exchange symbol timeframe
       (Threw err) subscribed in
   w2 = w'
   /\ error h2 = Some (errorMessage err)
   /\ isLoading h2 = false
   /\ data h2 = data h
   /\ existsb is_register (calls1 ++ calls2) = false)
  /\ initializeChart w h now exchange symbol timeframe (Threw err) subscribed
       now'
     = (w, setIsLoading (setError h1 (Some (errorMessage err))) false,
        [CallFetch exchange symbol timeframe 500])
  /\ (forall freshData,
        fst (fst (initializeChart_resume w' h1 now' exchange symbol timeframe
                    (Returned freshData) (Threw err))) = w')
  /\ (forall fetched subscribed0,
        existsb is_register
          (snd (initializeChart_resume w' h1 now' exchange symbol timeframe
                  fetched subscribed0)) = true ->
        exists freshData unsubscribeFn,
          fetched = Returned freshData
          /\ subscribed0 = Returned unsubscribeFn).
Proof.
  intros Henter.
  destruct (initializeChart_enter_awaiting _ _ _ _ _ _ _ _ Henter)
    as [Hh1 Hcalls].
  split; [|split; [|split]].
  - cbn. subst h1 calls1. cbn. auto.
  - unfold initializeChart. rewrite Henter. cbn. subst calls1. reflexivity.
  - reflexivity.
  - intros [freshData|e] [cb|e']; cbn; try discriminate. eauto.
Qed.

(** C1, as the code has it.  For a key whose record was created by
    [registerConnection] and deactivated once, a remount while the cached
    data is fresh and the record is still in the map does not take the reuse
    branch: the cache answers, but [isConnectionActive] is false, so
    [initializeChart] calls the fetch and [onSubscribe] and then
    [registerConnection], which raises the count of the record to 1 and
    keeps its data and its [unsubscribe]. *)
Theorem remount_within_grace_refetches
    w h exchange symbol timeframe (t0 now now' : Z)
    (D D2 : list CandleStick) (R R2 : callback) :
  lookup w exchange symbol timeframe = None ->
  now - t0 < 30000 ->
  let w1 := fst (registerConnection w t0 exchange symbol timeframe D R) in
  let w2 := deactivateConnection w1 exchange symbol timeframe in
  getSubscriptionCount w2 exchange symbol timeframe = 0
  /\ getCachedData w2 now exchange symbol timeframe = Some D
  /\ isConnectionActive w2 exchange symbol timeframe = false
  /\ (let '(w3, h3, calls) :=
        initializeChart w2 h now exchange symbol timeframe
          (Returned D2) (Returned R2) now' in
      calls = [CallFetch exchange symbol timeframe 500;
               CallSubscribe; CallRegister]
      /\ data h3 = D2
      /\ isReusingConnection h3 = false
      /\ released w3 = released w
      /\ exists c,
           lookup w3 exchange symbol timeframe = Some c
           /\ subscriptionCount c = 1
           /\ lastData c = D
           /\ unsubscribe c = R
           /\ oid c = nextId w).
Proof.
  intros Hnone Hfresh w1 w2.
  assert (H2 : lookup w2 exchange symbol timeframe
               = Some (mkConnection (nextId w) symbol exchange timeframe D t0
                         false R 0)).
  { subst w2 w1. unfold lookup in *.
    unfold registerConnection, deactivateConnection. rewrite Hnone.
    cbn -[JsMap.get JsMap.set]. rewrite JsMapFacts.get_set_same.
    cbn -[JsMap.get JsMap.set]. now rewrite JsMapFacts.get_set_same. }
  assert (Hrel : released w2 = released w).
  { subst w2 w1. unfold lookup in *.
    unfold registerConnection, deactivateConnection. rewrite Hnone.
    cbn -[JsMap.get JsMap.set]. rewrite JsMapFacts.get_set_same.
    reflexivity. }
  assert (Hcache : getCachedData w2 now exchange symbol timeframe = Some D).
  { unfold getCachedData. unfold lookup in H2. rewrite H2. cbn.
    destruct (Z.ltb_spec (now - t0) 30000); [reflexivity|lia]. }
  assert (Hact : isConnectionActive w2 exchange symbol timeframe = false).
  { unfold isConnectionActive. unfold lookup in H2. now rewrite H2. }
  split; [|split; [exact Hcache|split; [exact Hact|]]].
  - unfold getSubscriptionCount. unfold lookup in H2. now rewrite H2.
  - unfold initializeChart, initializeChart_enter.
    rewrite Hcache, Hact. cbn [initializeChart_resume app].
    repeat split.
    + unfold registerConnection. unfold lookup in H2. rewrite H2. cbn [fst].
      exact Hrel.
    + unfold registerConnection. unfold lookup in H2. rewrite H2. cbn [fst].
      eexists. split; [apply lookup_set_same|]. cbn. auto.
Qed.

End HookProperties.

(** ** The sweep and the releases *)

Section Ledger.
Context {CandleStick : Type}.
Implicit Types (w : World CandleStick) (c : ChartConnection CandleStick).
Implicit Types (m : JsMap.t (ChartConnection CandleStick)).

Lemma filter_twice {A : Type} (p q : A -> bool) (l : list A) :
  filter p (filter q l) = filter (fun x => q x && p x) l.
Proof.
  induction l as [|a l IH]; simpl; [reflexivity|].
  destruct (q a); simpl; [destruct (p a)|]; now rewrite IH.
Qed.

(** The loop of the sweep over any list of entries: an entry of the map
    goes when the list holds a sweepable entry under its key. *)
Lemma sweep_loop now delay (l : list (string * ChartConnection CandleStick)) w :
  let w' := fold_left (sweepEntry now delay) l w in
  connections w'
  = filter
      (fun kv =>
         negb (existsb
                 (fun e => String.eqb (fst e) (fst kv)
                           && sweepable now delay (snd e)) l))
      (connections w)
  /\ released w'
     = released w
       ++ map (fun e => release_of (snd e))
            (filter (fun e => sweepable now delay (snd e)) l)
  /\ timers w' = timers w /\ nextId w' = nextId w.
Proof.
  revert w. induction l as [|[key c] l IH]; intros w; cbn [fold_left].
  - cbn. rewrite app_nil_r. repeat split; auto.
    induction (connections w) as [|a r IHr]; simpl; congruence.
  - destruct (IH (sweepEntry now delay w (key, c))) as (Hc & Hr & Ht & Hn).
    cbv zeta. rewrite Hc, Hr, Ht, Hn. clear Hc Hr Ht Hn IH.
    unfold sweepEntry. cbn [filter existsb fst snd].
    destruct (sweepable now delay c); cbn [connections released timers nextId
      with_connections call_unsubscribe map].
    + repeat split; auto.
      * unfold JsMap.delete. rewrite filter_twice. apply filter_ext.
        intros [k v]. cbn [fst]. rewrite andb_true_r, negb_orb.
        reflexivity.
      * now rewrite <- app_assoc.
    + repeat split; auto. apply filter_ext. intros [k v].
      now rewrite andb_false_r.
Qed.

(** With unique keys the sweep keeps the entries that are not sweepable and
    calls [unsubscribe] of the others, in map order. *)
Lemma sweep_spec w now delay :
  NoDup (JsMap.keys (connections w)) ->
  let w' := sweep w now delay in
  connections w'
  = filter (fun kv => negb (sweepable now delay (snd kv))) (connections w)
  /\ released w'
     = released w
       ++ map (fun e => release_of (snd e))
            (filter (fun e => sweepable now delay (snd e)) (connections w))
  /\ timers w' = timers w /\ nextId w' = nextId w.
Proof.
  intros Hnd. unfold sweep, JsMap.entries.
  destruct (sweep_loop now delay (connections w) w) as (Hc & Hr & Ht & Hn).
  cbv zeta. rewrite Hc. repeat split; auto.
  apply filter_ext_in. intros kv HIn. f_equal.
  destruct (sweepable now delay (snd kv)) eqn:Hs.
  - apply existsb_exists. exists kv. now rewrite String.eqb_refl, Hs.
  - apply not_true_is_false. intros Hex.
    apply existsb_exists in Hex as (e & He & Hb).
    apply andb_prop in Hb as [Hk Hse]. apply String.eqb_eq in Hk.
    assert (e = kv) by (eapply NoDup_map_eq; eauto). subst e. congruence.
Qed.

(** Three ways a call can change what the ledger looks at. *)

Lemma ledger_same w w' :
  ledger w ->
  JsMap.keys (connections w') = JsMap.keys (connections w) ->
  record_ids w' = record_ids w ->
  released w' = released w ->
  nextId w' = nextId w ->
  ledger w'.
Proof.
  intros [[Hk Hi Ha] Ho Hal Hap Hco] Ek Ei Er En.
  assert (Eri : released_ids w' = released_ids w)
    by (unfold released_ids; now rewrite Er).
  split; [split|..]; rewrite ?Ek, ?Ei, ?Eri, ?En; auto.
Qed.

Lemma ledger_create w w' key c :
  ledger w ->
  JsMap.get key (connections w) = None ->
  oid c = nextId w ->
  connections w' = connections w ++ [(key, c)] ->
  released w' = released w ->
  nextId w' = S (nextId w) ->
  ledger w'.
Proof.
  intros [[Hk Hi Ha] Ho Hal Hap Hco] Hnone Hoid Ec Er En.
  assert (Eri : released_ids w' = released_ids w)
    by (unfold released_ids; now rewrite Er).
  assert (Ek : JsMap.keys (connections w')
               = JsMap.keys (connections w) ++ [key])
    by (unfold JsMap.keys; now rewrite Ec, map_app).
  assert (Ei : record_ids w' = record_ids w ++ [nextId w]).
  { unfold record_ids, JsMap.values. rewrite Ec, !map_app. cbn.
    now rewrite Hoid. }
  split; [split|..]; rewrite ?Ek, ?Ei, ?Eri, ?En.
  - apply NoDup_app; auto.
    + repeat constructor. intros [].
    + intros a HIn [<-|[]]. revert HIn. now apply JsMapFacts.get_None_keys.
  - apply NoDup_app; auto.
    + repeat constructor. intros [].
    + intros a HIn [<-|[]]. apply Ha in HIn. lia.
  - intros id HIn. apply in_app_or in HIn as [HIn|[<-|[]]]; [|lia].
    apply Ha in HIn. lia.
  - exact Ho.
  - intros id HIn. apply Hal in HIn. lia.
  - intros id HIn. apply in_app_or in HIn as [HIn|[<-|[]]]; [now apply Hap|].
    intros HIn. apply Hal in HIn. lia.
  - intros id Hlt. rewrite in_app_iff.
    destruct (Nat.eq_dec id (nextId w)) as [->|Hne]; [left; right; now left|].
    destruct (Hco id) as [H|H]; [lia|auto|auto].
Qed.

Lemma ledger_destroy w w' (keep : string * ChartConnection CandleStick -> bool) :
  ledger w ->
  connections w' = filter keep (connections w) ->
  released w'
  = released w
    ++ map (fun e => release_of (snd e))
         (filter (fun e => negb (keep e)) (connections w)) ->
  nextId w' = nextId w ->
  ledger w'.
Proof.
  intros [[Hk Hi Ha] Ho Hal Hap Hco] Ec Er En.
  set (idof := fun e : string * ChartConnection CandleStick => oid (snd e)).
  assert (Ei : record_ids w' = map idof (filter keep (connections w))).
  { unfold record_ids, JsMap.values. now rewrite Ec, map_map. }
  assert (Ei0 : record_ids w = map idof (connections w)).
  { unfold record_ids, JsMap.values. now rewrite map_map. }
  assert (Eri : released_ids w'
                = released_ids w
                  ++ map idof (filter (fun e => negb (keep e)) (connections w))).
  { unfold released_ids. now rewrite Er, map_app, map_map. }
  rewrite Ei0 in *.
  split; [split|..]; rewrite ?Ei, ?Eri, ?En.
  - unfold JsMap.keys. rewrite Ec. now apply NoDup_map_filter.
  - now apply NoDup_map_filter.
  - intros id HIn. apply Ha. apply in_map_iff in HIn as (e & <- & HIn).
    apply filter_In in HIn as [HIn _]. now apply in_map.
  - apply NoDup_app; auto.
    + now apply NoDup_map_filter.
    + intros id HIn HIn'. apply in_map_iff in HIn' as (e & <- & HIn').
      apply filter_In in HIn' as [HIn' _]. apply (Hap (idof e)); auto.
      now apply in_map.
  - intros id HIn. apply in_app_or in HIn as [HIn|HIn]; [now apply Hal|].
    apply Ha. apply in_map_iff in HIn as (e & <- & HIn).
    apply filter_In in HIn as [HIn _]. now apply in_map.
  - intros id HIn HIn'. apply in_map_iff in HIn as (e & <- & HIn).
    apply filter_In in HIn as [HIn Hkeep].
    apply in_app_or in HIn' as [HIn'|HIn'].
    + apply (Hap (idof e)); auto. now apply in_map.
    + apply in_map_iff in HIn' as (e' & Heq & HIn').
      apply filter_In in HIn' as [HIn' Hdrop].
      assert (e' = e) by (eapply NoDup_map_eq; eauto). subst e'.
      rewrite Hkeep in Hdrop. discriminate.
  - intros id Hlt. rewrite in_app_iff.
    destruct (Hco id Hlt) as [HIn|HIn]; [|auto].
    apply in_map_iff in HIn as (e & <- & HIn).
    destruct (keep e) eqn:Hkeep.
    + left. apply in_map. apply filter_In. auto.
    + right. right. apply in_map. apply filter_In. now rewrite Hkeep.
Qed.

Lemma set_keeps_keys_and_ids w key c c' :
  JsMap.get key (connections w) = Some c ->
  oid c' = oid c ->
  let w' := with_connections w (JsMap.set key c' (connections w)) in
  JsMap.keys (connections w') = JsMap.keys (connections w)
  /\ record_ids w' = record_ids w.
Proof.
  intros Hget Hoid. cbn. unfold JsMap.keys, record_ids, JsMap.values.
  cbn [connections with_connections]. split.
  - now apply (JsMapFacts.set_present _ _ c).
  - rewrite !map_map. now apply (JsMapFacts.set_present _ _ c).
Qed.

Lemma ledger_set w key c c' :
  ledger w ->
  JsMap.get key (connections w) = Some c ->
  oid c' = oid c ->
  ledger (with_connections w (JsMap.set key c' (connections w))).
Proof.
  intros Hl Hget Hoid.
  destruct (set_keeps_keys_and_ids w key c c' Hget Hoid) as [Hk Hi].
  now apply (ledger_same w).
Qed.

Lemma wf_set w key c c' :
  wf w ->
  JsMap.get key (connections w) = Some c ->
  oid c' = oid c ->
  wf (with_connections w (JsMap.set key c' (connections w))).
Proof.
  intros [Hk Hi Ha] Hget Hoid.
  destruct (set_keeps_keys_and_ids w key c c' Hget Hoid) as [Ek Ei].
  split; rewrite ?Ek, ?Ei; auto.
Qed.

Lemma filter_none {A : Type} (xs : list A) :
  filter (fun _ : A => false) xs = nil.
Proof. now induction xs. Qed.

Lemma filter_all {A : Type} (xs : list A) :
  filter (fun _ : A => true) xs = xs.
Proof. induction xs as [|x xs IH]; simpl; [|rewrite IH]; reflexivity. Qed.

(** Every call of the manager keeps the ledger. *)
Lemma ledger_step w (ev : Z * op CandleStick) : ledger w -> ledger (step w ev).
Proof.
  intros Hl. destruct ev as [now o].
  destruct o as [e s t d cb|e s t d|e s t|e s t|e s t|delay|i|]; cbn [step].
  - unfold registerConnection.
    destruct (JsMap.get (generateKey e s t) (connections w)) as [c|] eqn:Hget;
      cbn [fst].
    + now apply (ledger_set w _ c).
    + apply (ledger_create w _ (generateKey e s t)
               (mkConnection (nextId w) s e t d now true cb 1)); auto.
      cbn. now apply JsMapFacts.set_absent.
  - unfold updateCachedData.
    destruct (JsMap.get (generateKey e s t) (connections w)) as [c|] eqn:Hget;
      [now apply (ledger_set w _ c)|exact Hl].
  - unfold deactivateConnection.
    destruct (JsMap.get (generateKey e s t) (connections w)) as [c|] eqn:Hget;
      [|exact Hl].
    apply (ledger_set w _ c); auto.
    now destruct (_ <=? 0).
  - unfold activateConnection.
    destruct (JsMap.get (generateKey e s t) (connections w)) as [c|] eqn:Hget;
      [now apply (ledger_set w _ c)|exact Hl].
  - unfold removeConnection.
    destruct (JsMap.get (generateKey e s t) (connections w)) as [c|] eqn:Hget;
      [|exact Hl].
    destruct (_ <=? 0); [|now apply (ledger_set w _ c)].
    apply (ledger_destroy w _
             (fun kv => negb (String.eqb (generateKey e s t) (fst kv))));
      auto.
    cbn. f_equal.
    rewrite (filter_ext _ (fun kv => String.eqb (generateKey e s t) (fst kv)))
      by (intros a; apply negb_involutive).
    rewrite (JsMapFacts.filter_key _ c); auto.
    apply Hl.
  - unfold cleanupInactiveConnections. now apply (ledger_same w).
  - unfold fireTimer. destruct (nth_error (timers w) i) as [tm|]; [|exact Hl].
    destruct (due tm <=? now); [|exact Hl].
    set (w0 := with_timers w (remove_nth i (timers w))).
    assert (Hl0 : ledger w0) by now apply (ledger_same w).
    destruct (sweep_spec w0 now (captured_delay tm)) as (Hc & Hr & _ & Hn);
      [apply Hl0|].
    apply (ledger_destroy w0 _ _ Hl0 Hc); auto.
    rewrite Hr. f_equal. f_equal. apply filter_ext.
    intros a. now rewrite negb_involutive.
  - unfold cleanupAll.
    destruct (fold_call_unsubscribe (JsMap.values (connections w)) w)
      as (Hc & Hr & Ht & Hn).
    apply (ledger_destroy w _ (fun _ => false) Hl); cbn.
    + now rewrite filter_none.
    + rewrite Hr, filter_all. unfold JsMap.values. now rewrite map_map.
    + exact Hn.
Qed.

Lemma ledger_run (evs : list (Z * op CandleStick)) w :
  ledger w -> ledger (run evs w).
Proof.
  revert w. unfold run.
  induction evs as [|ev evs IH]; intros w Hl; cbn [fold_left]; auto.
  apply IH. now apply ledger_step.
Qed.

Lemma ledger_init : ledger (@init CandleStick).
Proof.
  split; [split|..]; cbn; try constructor; try tauto; intros; lia.
Qed.

Lemma existsb_nat_In (id : nat) (l : list nat) :
  existsb (fun y => Nat.eqb y id) l = true <-> In id l.
Proof.
  rewrite existsb_exists. split.
  - intros (y & HIn & E). apply Nat.eqb_eq in E. now subst.
  - intros HIn. exists id. now rewrite Nat.eqb_refl.
Qed.

Lemma alive_In (id : nat) w : alive id w = true <-> In id (record_ids w).
Proof.
  unfold alive, record_ids. rewrite <- existsb_nat_In.
  induction (JsMap.values (connections w)) as [|c l IH]; simpl; [tauto|].
  destruct (Nat.eqb (oid c) id); simpl; tauto.
Qed.

Lemma release_count_ids (id : nat) w :
  release_count id w
  = List.length (filter (fun y => Nat.eqb y id) (released_ids w)).
Proof.
  unfold release_count, released_ids.
  now rewrite filter_map_swap, length_map.
Qed.

(** C2.  After any sequence of calls on a new manager, and for every record
    object: while the object is in the map its [unsubscribe] has not been
    called; once an allocated object has left the map (by
    [removeConnection], by a sweep or by [cleanupAll]) its [unsubscribe] has
    been called exactly once; and nothing is ever called for an object that
    was never allocated.  Object identities below [nextId] are the allocated
    ones. *)
Theorem release_exactly_once (evs : list (Z * op CandleStick)) (id : nat) :
  let w := run evs init in
  release_count id w
  = if alive id w then 0%nat
    else if (id <? nextId w)%nat then 1%nat else 0%nat.
Proof.
  intros w.
  destruct (ledger_run evs init ledger_init) as [Hwf Ho Hal Hap Hco].
  fold w in Hwf, Ho, Hal, Hap, Hco.
  rewrite release_count_ids.
  rewrite (count_NoDup Nat.eqb _ id) by (auto; intros y; apply Nat.eqb_eq).
  destruct (alive id w) eqn:Halive.
  - apply alive_In in Halive. apply Hap in Halive.
    destruct (existsb _ _) eqn:Hex; [|reflexivity].
    apply existsb_nat_In in Hex. contradiction.
  - destruct (Nat.ltb_spec id (nextId w)) as [Hlt|Hge].
    + destruct (Hco id Hlt) as [HIn|HIn].
      * apply alive_In in HIn. congruence.
      * apply existsb_nat_In in HIn. now rewrite HIn.
    + destruct (existsb _ _) eqn:Hex; [|reflexivity].
      apply existsb_nat_In in Hex. apply Hal in Hex. lia.
Qed.

(** [cleanupInactiveConnections] changes nothing but the pending timers: it
    adds one, due [delay] ms later and holding [delay]. *)
Lemma cleanupInactiveConnections_schedules w (t0 delay : Z) :
  let w' := cleanupInactiveConnections w t0 (Some delay) in
  connections w' = connections w
  /\ released w' = released w
  /\ nth_error (timers w') (List.length (timers w))
     = Some (mkTimer (t0 + Z.max delay 0) delay).
Proof.
  cbn. repeat split.
  rewrite nth_error_app2, Nat.sub_diag by lia. reflexivity.
Qed.

(** C6.  When a pending sweep runs, at clock [now] and with the delay it
    was scheduled with, the records it takes out of the map are exactly those
    with [isActive] false, count at most 0 and [now - lastUpdated] greater
    than the delay, and the [unsubscribe] closures it calls are exactly
    theirs.  If [activateConnection] ran for a key with a record before the
    sweep runs, the sweep leaves that record in the map and does not call its
    [unsubscribe]. *)
Theorem sweep_condition_and_reactivation w (now : Z) (i : nat) (tm : Timer) :
  wf w ->
  nth_error (timers w) i = Some tm ->
  due tm <= now ->
  let delay := captured_delay tm in
  let w' := fireTimer w now i in
  (forall c, sweepable now delay c = true <->
             isActive c = false /\ subscriptionCount c <= 0
             /\ now - lastUpdated c > delay)
  /\ connections w'
     = filter (fun kv => negb (sweepable now delay (snd kv))) (connections w)
  /\ (forall e s t,
        lookup w' e s t
        = match lookup w e s t with
          | Some c => if sweepable now delay c then None else Some c
          | None => None
          end)
  /\ released w'
     = released w
       ++ map release_of
            (filter (sweepable now delay) (JsMap.values (connections w)))
  /\ (forall e s t tact c,
        lookup w e s t = Some c ->
        let wa := activateConnection w tact e s t in
        let wb := fireTimer wa now i in
        lookup wb e s t = lookup wa e s t
        /\ (exists c', lookup wb e s t = Some c'
                       /\ oid c' = oid c /\ isActive c' = true)
        /\ exists rs, released wb = released w ++ rs
                      /\ ~ In (oid c) (map fst rs)).
Proof.
  intros Hwf Hnth Hdue delay w'. subst delay.
  assert (Hfire : forall w0 : World CandleStick,
            wf w0 -> timers w0 = timers w ->
            connections (fireTimer w0 now i)
            = filter (fun kv => negb (sweepable now (captured_delay tm) (snd kv)))
                (connections w0)
            /\ released (fireTimer w0 now i)
               = released w0
                 ++ map release_of
                      (filter (sweepable now (captured_delay tm))
                         (JsMap.values (connections w0)))).
  { intros w0 Hwf0 Ht. unfold fireTimer. rewrite Ht, Hnth.
    destruct (Z.leb_spec (due tm) now); [|lia].
    destruct (sweep_spec (with_timers w0 (remove_nth i (timers w))) now (captured_delay tm))
      as (Hc & Hr & _); [apply Hwf0|].
    split; [exact Hc|]. rewrite Hr. cbn. f_equal.
    unfold JsMap.values. now rewrite filter_map_swap, map_map. }
  destruct (Hfire w Hwf eq_refl) as [Hc Hr]. fold w' in Hc, Hr.
  split; [|split; [exact Hc|split; [|split; [exact Hr|]]]].
  - intros c. unfold sweepable.
    rewrite !andb_true_iff, negb_true_iff, Z.leb_le, Z.gtb_gt. tauto.
  - intros e s t. unfold lookup. rewrite Hc.
    rewrite JsMapFacts.get_filter by apply Hwf.
    destruct (JsMap.get _ _) as [c|]; [|reflexivity].
    cbn. now destruct (sweepable now (captured_delay tm) c).
  - intros e s t tact c Hlook wa wb.
    set (c' := with_lastUpdated
                 (with_isActive
                    (with_subscriptionCount c (subscriptionCount c + 1)) true)
                 tact).
    assert (Ewa : wa = with_connections w
                         (JsMap.set (generateKey e s t) c' (connections w))).
    { subst wa. unfold activateConnection. unfold lookup in Hlook.
      now rewrite Hlook. }
    assert (Hwfa : wf wa).
    { rewrite Ewa. now apply (wf_set w _ c). }
    assert (Hla : lookup wa e s t = Some c').
    { rewrite Ewa. apply lookup_set_same. }
    assert (Hns : sweepable now (captured_delay tm) c' = false) by reflexivity.
    destruct (Hfire wa Hwfa) as [Hcb Hrb]; [now rewrite Ewa|].
    fold wb in Hcb, Hrb.
    assert (Hlb : lookup wb e s t = Some c').
    { unfold lookup in *. rewrite Hcb.
      rewrite JsMapFacts.get_filter by apply Hwfa.
      rewrite Hla. cbn [snd]. now rewrite Hns. }
    split; [congruence|split].
    + exists c'. auto.
    + eexists. split.
      * rewrite Hrb. f_equal. now rewrite Ewa.
      * rewrite map_map. intros HIn.
        apply in_map_iff in HIn as (x & Hx & HIn).
        apply filter_In in HIn as [HIn Hsx]. cbn in Hx.
        assert (HIn' : In c' (JsMap.values (connections wa))).
        { unfold lookup in Hla. apply JsMapFacts.get_In in Hla.
          unfold JsMap.values. change c' with (snd (generateKey e s t, c')).
          now apply in_map. }
        assert (x = c').
        { apply (NoDup_map_eq oid (JsMap.values (connections wa))); auto.
          apply Hwfa. }
        subst x. congruence.
Qed.

End Ledger.

(** ** The sign of the count *)

Section Counts.
Context {CandleStick : Type}.
Implicit Types (w : World CandleStick) (c : ChartConnection CandleStick).

Lemma Forall_values_set (P : ChartConnection CandleStick -> Prop) key c
    (m : JsMap.t (ChartConnection CandleStick)) :
  Forall P (JsMap.values m) -> P c -> Forall P (JsMap.values (JsMap.set key c m)).
Proof.
  unfold JsMap.values. induction m as [|[k v] r IH]; simpl; intros Hall Hc.
  - auto.
  - inversion Hall; subst. destruct (String.eqb key k); simpl; auto.
Qed.

Lemma Forall_values_filter (P : ChartConnection CandleStick -> Prop) p
    (m : JsMap.t (ChartConnection CandleStick)) :
  Forall P (JsMap.values m) -> Forall P (JsMap.values (filter p m)).
Proof.
  unfold JsMap.values. rewrite !Forall_forall. intros Hall x HIn.
  apply in_map_iff in HIn as (e & <- & HIn). apply filter_In in HIn as [HIn _].
  apply Hall. now apply in_map.
Qed.

Lemma Forall_values_get (P : ChartConnection CandleStick -> Prop) key c
    (m : JsMap.t (ChartConnection CandleStick)) :
  Forall P (JsMap.values m) -> JsMap.get key m = Some c -> P c.
Proof.
  intros Hall Hget. apply JsMapFacts.get_In in Hget.
  rewrite Forall_forall in Hall. apply Hall. unfold JsMap.values.
  change c with (snd (key, c)). now apply in_map.
Qed.

(** One call keeps the counts non-negative, provided a
    [deactivateConnection] finds no record or a count of at least 1. *)
Lemma counts_nonneg_step w (ev : Z * op CandleStick) :
  counts_nonneg w ->
  deactivations_matched [ev] w = true ->
  counts_nonneg (step w ev).
Proof.
  intros Hall Hm. destruct ev as [now o]. unfold counts_nonneg in *.
  cbn [deactivations_matched snd] in Hm. rewrite andb_true_r in Hm.
  destruct o as [e s t d cb|e s t d|e s t|e s t|e s t|delay|i|]; cbn [step].
  - unfold registerConnection.
    destruct (JsMap.get (generateKey e s t) (connections w)) as [c|] eqn:Hget;
      cbn [fst connections with_connections];
      apply Forall_values_set; auto; cbn; try lia.
    pose proof (Forall_values_get _ _ _ _ Hall Hget). cbn in *. lia.
  - unfold updateCachedData.
    destruct (JsMap.get (generateKey e s t) (connections w)) as [c|] eqn:Hget;
      [|exact Hall].
    apply Forall_values_set; auto.
    exact (Forall_values_get _ _ _ _ Hall Hget).
  - unfold deactivateConnection. unfold lookup in Hm.
    destruct (JsMap.get (generateKey e s t) (connections w)) as [c|] eqn:Hget;
      [|exact Hall].
    apply Z.leb_le in Hm.
    apply Forall_values_set; auto.
    cbn [subscriptionCount with_subscriptionCount].
    destruct (_ <=? 0); cbn; lia.
  - unfold activateConnection.
    destruct (JsMap.get (generateKey e s t) (connections w)) as [c|] eqn:Hget;
      [|exact Hall].
    apply Forall_values_set; auto.
    pose proof (Forall_values_get _ _ _ _ Hall Hget). cbn in *. lia.
  - unfold removeConnection.
    destruct (JsMap.get (generateKey e s t) (connections w)) as [c|] eqn:Hget;
      [|exact Hall].
    cbn [subscriptionCount with_subscriptionCount].
    destruct (Z.leb_spec (subscriptionCount c - 1) 0).
    + cbn. now apply Forall_values_filter.
    + apply Forall_values_set; auto. cbn. lia.
  - exact Hall.
  - unfold fireTimer. destruct (nth_error (timers w) i) as [tm|]; [|exact Hall].
    destruct (due tm <=? now); [|exact Hall].
    unfold sweep, JsMap.entries.
    destruct (sweep_loop now (captured_delay tm)
                (connections (with_timers w (remove_nth i (timers w))))
                (with_timers w (remove_nth i (timers w)))) as (Hc & _).
    rewrite Hc. now apply Forall_values_filter.
  - cbn. constructor.
Qed.

Lemma deactivations_matched_cons (ev : Z * op CandleStick) evs w :
  deactivations_matched (ev :: evs) w
  = deactivations_matched [ev] w && deactivations_matched evs (step w ev).
Proof. cbn. now rewrite andb_true_r. Qed.

Lemma counts_nonneg_observed w exchange symbol timeframe :
  counts_nonneg w -> 0 <= getSubscriptionCount w exchange symbol timeframe.
Proof.
  intros Hall. unfold getSubscriptionCount.
  destruct (JsMap.get _ _) as [c|] eqn:Hget; [|lia].
  pose proof (Forall_values_get _ _ _ _ Hall Hget) as Hc. cbn in Hc.
  destruct (_ =? 0); lia.
Qed.

(** C3, as the code has it.  The count never becomes negative along a
    sequence of calls in which every [deactivateConnection] finds no record
    or a record with a count of at least 1; [removeConnection] may be called
    any number of times, since it deletes the record when the count reaches 0
    or less.  So [getSubscriptionCount] is never negative along such a
    sequence. *)
Theorem count_nonneg_when_deactivations_matched
    w (evs : list (Z * op CandleStick)) :
  counts_nonneg w ->
  deactivations_matched evs w = true ->
  counts_nonneg (run evs w)
  /\ forall exchange symbol timeframe,
       0 <= getSubscriptionCount (run evs w) exchange symbol timeframe.
Proof.
  intros Hall Hm.
  assert (H : counts_nonneg (run evs w)).
  { revert w Hall Hm. unfold run.
    induction evs as [|ev evs IH]; intros w Hall Hm; cbn [fold_left]; auto.
    rewrite deactivations_matched_cons in Hm.
    apply andb_prop in Hm as [Hm1 Hm2].
    apply IH; auto. now apply counts_nonneg_step. }
  split; [exact H|]. intros. now apply counts_nonneg_observed.
Qed.

End Counts.

(** ** More of the manager *)

Section MoreManager.
Context {CandleStick : Type}.
Implicit Types (w : World CandleStick) (c : ChartConnection CandleStick).
Implicit Types (exchange symbol timeframe : string).

Lemma get_filter_absent {V : Type} (p : string * V -> bool) key
    (m : JsMap.t V) :
  JsMap.get key m = None -> JsMap.get key (filter p m) = None.
Proof.
  induction m as [|[k v] r IH]; simpl; [reflexivity|].
  destruct (String.eqb_spec key k) as [->|Hne]; [discriminate|].
  intros Hr. destruct (p (k, v)); simpl; auto.
  destruct (String.eqb_spec key k); [contradiction|auto].
Qed.

Lemma get_present_differs {V : Type} key key' (v : V) (m : JsMap.t V) :
  JsMap.get key m = None -> JsMap.get key' m = Some v -> key' <> key.
Proof. intros Hn Hs ->. congruence. Qed.

(** A call that is not a [registerConnection] for the key leaves a key
    without a record without a record. *)
Lemma step_keeps_absent w (ev : Z * op CandleStick) key :
  JsMap.get key (connections w) = None ->
  registers_key key [ev] = false ->
  JsMap.get key (connections (step w ev)) = None.
Proof.
  intros Hnone Hreg. destruct ev as [now o].
  cbn [registers_key existsb snd] in Hreg. rewrite orb_false_r in Hreg.
  destruct o as [e s t d cb|e s t d|e s t|e s t|e s t|delay|i|]; cbn [step].
  - apply String.eqb_neq in Hreg. unfold registerConnection.
    destruct (JsMap.get (generateKey e s t) (connections w)); cbn;
      now rewrite JsMapFacts.get_set_other.
  - unfold updateCachedData.
    destruct (JsMap.get (generateKey e s t) (connections w)) eqn:Hg; auto.
    cbn. rewrite JsMapFacts.get_set_other; eauto using get_present_differs.
  - unfold deactivateConnection.
    destruct (JsMap.get (generateKey e s t) (connections w)) eqn:Hg; auto.
    cbn [connections with_connections].
    rewrite JsMapFacts.get_set_other; eauto using get_present_differs.
  - unfold activateConnection.
    destruct (JsMap.get (generateKey e s t) (connections w)) eqn:Hg; auto.
    cbn. rewrite JsMapFacts.get_set_other; eauto using get_present_differs.
  - unfold removeConnection.
    destruct (JsMap.get (generateKey e s t) (connections w)) eqn:Hg; auto.
    destruct (_ <=? 0); cbn [connections with_connections call_unsubscribe].
    + rewrite JsMapFacts.get_delete_other; eauto using get_present_differs.
    + rewrite JsMapFacts.get_set_other; eauto using get_present_differs.
  - exact Hnone.
  - unfold fireTimer. destruct (nth_error (timers w) i) as [tm|]; auto.
    destruct (due tm <=? now); auto.
    unfold sweep, JsMap.entries.
    destruct (sweep_loop now (captured_delay tm)
                (connections (with_timers w (remove_nth i (timers w))))
                (with_timers w (remove_nth i (timers w)))) as (Hc & _).
    rewrite Hc. now apply get_filter_absent.
  - reflexivity.
Qed.

Lemma registers_key_cons key (ev : Z * op CandleStick) evs :
  registers_key key (ev :: evs)
  = registers_key key [ev] || registers_key key evs.
Proof. cbn. now rewrite orb_false_r. Qed.

(** X1.  Only [registerConnection] creates a record: along any sequence of
    calls that holds no [registerConnection] for the key, a key without a
    record stays without one; [updateCachedData] and [activateConnection] put
    nothing back, whatever was removed before. *)
Theorem record_only_created_by_registerConnection
    w (evs : list (Z * op CandleStick)) exchange symbol timeframe :
  lookup w exchange symbol timeframe = None ->
  registers_key (generateKey exchange symbol timeframe) evs = false ->
  lookup (run evs w) exchange symbol timeframe = None
  /\ getSubscriptionCount (run evs w) exchange symbol timeframe = 0
  /\ isConnectionActive (run evs w) exchange symbol timeframe = false
  /\ forall now,
       getCachedData (run evs w) now exchange symbol timeframe = None.
Proof.
  intros Hnone Hreg.
  assert (H : lookup (run evs w) exchange symbol timeframe = None).
  { revert w Hnone. unfold run, lookup.
    induction evs as [|ev evs IH]; intros w Hnone; cbn [fold_left]; auto.
    rewrite registers_key_cons in Hreg.
    apply orb_false_elim in Hreg as [Hev Hrest].
    apply IH; auto. now apply step_keeps_absent. }
  unfold getSubscriptionCount, isConnectionActive, getCachedData.
  unfold lookup in H. rewrite H. auto.
Qed.

(** X2.  [registerConnection] for a key without a record stores a record
    with count 1 that is active, whose data [getCachedData] returns for the
    next 30000 ms and not after; the records under the other keys are
    untouched, no closure is called and one object is allocated. *)
Theorem registerConnection_new_record
    w (t0 : Z) exchange symbol timeframe (D : list CandleStick)
    (R : callback) :
  lookup w exchange symbol timeframe = None ->
  let w' := fst (registerConnection w t0 exchange symbol timeframe D R) in
  getSubscriptionCount w' exchange symbol timeframe = 1
  /\ isConnectionActive w' exchange symbol timeframe = true
  /\ (forall now, now - t0 < 30000 ->
        getCachedData w' now exchange symbol timeframe = Some D)
  /\ (forall now, 30000 <= now - t0 ->
        getCachedData w' now exchange symbol timeframe = None)
  /\ (forall e s t,
        generateKey e s t <> generateKey exchange symbol timeframe ->
        lookup w' e s t = lookup w e s t)
  /\ released w' = released w
  /\ nextId w' = S (nextId w).
Proof.
  intros Hnone w'.
  destruct (registerConnection_absent w t0 _ _ _ D R Hnone) as (Hl & Hr).
  fold w' in Hl, Hr. unfold lookup in Hl.
  unfold getSubscriptionCount, isConnectionActive, getCachedData.
  rewrite Hl. cbn [subscriptionCount isActive lastUpdated lastData].
  repeat split; auto.
  - intros now Hlt. destruct (Z.ltb_spec (now - t0) 30000); [auto|lia].
  - intros now Hge. destruct (Z.ltb_spec (now - t0) 30000); [lia|auto].
  - intros e s t Hne. subst w'. unfold lookup, registerConnection.
    unfold lookup in Hnone. rewrite Hnone. cbn.
    apply JsMapFacts.get_set_other. congruence.
  - subst w'. unfold registerConnection. unfold lookup in Hnone.
    now rewrite Hnone.
Qed.

(** X3.  On a record [updateCachedData] replaces the data and sets
    [lastUpdated] to the clock, so that [getCachedData] returns the new data
    for the next 30000 ms, however old the record was; count, [isActive] and
    closure are kept and no closure is called.  The effect of the hook on
    [data] writes nothing when the data is empty. *)
Theorem updateCachedData_round_trip
    w (now : Z) exchange symbol timeframe (d : list CandleStick) c :
  lookup w exchange symbol timeframe = Some c ->
  let w' := updateCachedData w now exchange symbol timeframe d in
  lookup w' exchange symbol timeframe
  = Some (with_lastUpdated (with_lastData c d) now)
  /\ (forall now', now' - now < 30000 ->
        getCachedData w' now' exchange symbol timeframe = Some d)
  /\ getSubscriptionCount w' exchange symbol timeframe
     = getSubscriptionCount w exchange symbol timeframe
  /\ isConnectionActive w' exchange symbol timeframe
     = isConnectionActive w exchange symbol timeframe
  /\ released w' = released w
  /\ (d <> [] ->
      dataChangedEffect w now exchange symbol timeframe d = w')
  /\ dataChangedEffect w now exchange symbol timeframe [] = w.
Proof.
  intros Hc w'. unfold lookup in Hc.
  assert (Hl : lookup w' exchange symbol timeframe
               = Some (with_lastUpdated (with_lastData c d) now)).
  { subst w'. unfold updateCachedData. rewrite Hc. apply lookup_set_same. }
  split; [exact Hl|]. unfold lookup in Hl.
  unfold getCachedData, getSubscriptionCount, isConnectionActive.
  rewrite Hl, Hc. cbn [lastUpdated lastData subscriptionCount isActive
                       with_lastUpdated with_lastData].
  repeat split; auto.
  - intros now' Hlt. destruct (Z.ltb_spec (now' - now) 30000); [auto|lia].
  - subst w'. unfold updateCachedData. now rewrite Hc.
  - intros Hd. unfold dataChangedEffect. destruct d; [congruence|reflexivity].
Qed.

(** X4.  [removeConnection] on a record whose count is at most 1 tears it
    down at once: the closure of the record is called, the record is gone
    for every observer, whether or not it was active or fresh, and the
    records under the other keys are untouched. *)
Theorem removeConnection_last_consumer
    w exchange symbol timeframe c :
  lookup w exchange symbol timeframe = Some c ->
  subscriptionCount c <= 1 ->
  let w' := removeConnection w exchange symbol timeframe in
  lookup w' exchange symbol timeframe = None
  /\ released w' = released w ++ [release_of c]
  /\ getSubscriptionCount w' exchange symbol timeframe = 0
  /\ isConnectionActive w' exchange symbol timeframe = false
  /\ (forall now, getCachedData w' now exchange symbol timeframe = None)
  /\ (forall e s t,
        generateKey e s t <> generateKey exchange symbol timeframe ->
        lookup w' e s t = lookup w e s t).
Proof.
  intros Hc Hle w'. unfold lookup in Hc.
  assert (Ew : w' = with_connections
                      (call_unsubscribe w
                         (with_subscriptionCount c (subscriptionCount c - 1)))
                      (JsMap.delete (generateKey exchange symbol timeframe)
                         (connections w))).
  { subst w'. unfold removeConnection. rewrite Hc.
    cbn [subscriptionCount with_subscriptionCount].
    destruct (Z.leb_spec (subscriptionCount c - 1) 0); [reflexivity|lia]. }
  assert (Hl : lookup w' exchange symbol timeframe = None).
  { rewrite Ew. unfold lookup. cbn. apply JsMapFacts.get_delete_same. }
  split; [exact Hl|]. unfold lookup in Hl.
  unfold getSubscriptionCount, isConnectionActive, getCachedData.
  rewrite Hl. repeat split; auto.
  - now rewrite Ew.
  - intros e s t Hne. rewrite Ew. unfold lookup. cbn.
    apply JsMapFacts.get_delete_other. congruence.
Qed.

(** X5.  While other consumers remain (count above 1) [removeConnection]
    does what [deactivateConnection] does: the count goes down by one, the
    record stays as active as it was and no closure is called. *)
Theorem removeConnection_shared_is_deactivateConnection
    w exchange symbol timeframe c :
  lookup w exchange symbol timeframe = Some c ->
  1 < subscriptionCount c ->
  removeConnection w exchange symbol timeframe
  = deactivateConnection w exchange symbol timeframe
  /\ lookup (removeConnection w exchange symbol timeframe)
       exchange symbol timeframe
     = Some (with_subscriptionCount c (subscriptionCount c - 1))
  /\ released (removeConnection w exchange symbol timeframe) = released w.
Proof.
  intros Hc Hlt. unfold lookup in Hc.
  unfold removeConnection, deactivateConnection. rewrite Hc.
  cbn [subscriptionCount with_subscriptionCount].
  destruct (Z.leb_spec (subscriptionCount c - 1) 0); [lia|].
  repeat split. apply lookup_set_same.
Qed.

(** X6.  [cleanupAll] calls the closure of every record, in map order, and
    leaves no record for any observer; a second [cleanupAll] changes
    nothing.  It does not cancel the pending sweeps, but a sweep that runs
    afterwards finds nothing to release. *)
Theorem cleanupAll_releases_everything w :
  connections (cleanupAll w) = []
  /\ released (cleanupAll w)
     = released w ++ map release_of (JsMap.values (connections w))
  /\ timers (cleanupAll w) = timers w
  /\ (forall exchange symbol timeframe,
        getSubscriptionCount (cleanupAll w) exchange symbol timeframe = 0
        /\ isConnectionActive (cleanupAll w) exchange symbol timeframe = false
        /\ forall now,
             getCachedData (cleanupAll w) now exchange symbol timeframe = None)
  /\ cleanupAll (cleanupAll w) = cleanupAll w
  /\ (forall now i,
        connections (fireTimer (cleanupAll w) now i) = []
        /\ released (fireTimer (cleanupAll w) now i)
           = released (cleanupAll w)).
Proof.
  destruct (fold_call_unsubscribe (JsMap.values (connections w)) w)
    as (Hc & Hr & Ht & Hn).
  assert (E : cleanupAll w
              = mkWorld [] (released w
                            ++ map release_of (JsMap.values (connections w)))
                  (timers w) (nextId w)).
  { unfold cleanupAll, with_connections. cbv zeta in *.
    now rewrite Hr, Ht, Hn. }
  rewrite E. cbn [connections released timers].
  repeat split; auto.
  - unfold fireTimer. cbn [timers].
    destruct (nth_error (timers w) i); [|reflexivity].
    now destruct (due t <=? now).
  - unfold fireTimer. cbn [timers].
    destruct (nth_error (timers w) i); [|reflexivity].
    now destruct (due t <=? now).
Qed.

(** X22.  [activateConnection] followed by [deactivateConnection] on a
    record brings the count back to what it was, sets [lastUpdated] to the
    clock of the activation, and leaves [isActive] true exactly when the
    count is positive. *)
Theorem activate_then_deactivate
    w (now : Z) exchange symbol timeframe c :
  lookup w exchange symbol timeframe = Some c ->
  let w' :=
    deactivateConnection (activateConnection w now exchange symbol timeframe)
      exchange symbol timeframe in
  lookup w' exchange symbol timeframe
  = Some (with_lastUpdated
            (with_isActive c (0 <? subscriptionCount c)) now)
  /\ released w' = released w.
Proof.
  intros Hc w'. unfold lookup in Hc. subst w'.
  unfold activateConnection. rewrite Hc.
  unfold deactivateConnection. cbn [connections with_connections].
  rewrite JsMapFacts.get_set_same.
  cbn [subscriptionCount with_subscriptionCount with_isActive
       with_lastUpdated].
  replace (subscriptionCount c + 1 - 1) with (subscriptionCount c) by lia.
  split; [|now destruct (subscriptionCount c <=? 0)].
  unfold lookup.
  destruct (Z.leb_spec (subscriptionCount c) 0) as [Hle|Hgt];
    destruct (Z.ltb_spec 0 (subscriptionCount c)); try lia;
    cbn [connections with_connections]; rewrite JsMapFacts.get_set_same;
    destruct c; reflexivity.
Qed.

End MoreManager.

(** ** More of the sweep *)

Section MoreSweep.
Context {CandleStick : Type}.
Implicit Types (w : World CandleStick) (c : ChartConnection CandleStick).
Implicit Types (exchange symbol timeframe : string).

Lemma world_ext w w' :
  connections w = connections w' -> released w = released w' ->
  timers w = timers w' -> nextId w = nextId w' -> w = w'.
Proof. destruct w, w'; cbn; congruence. Qed.

Lemma wf_filter w w' (keep : string * ChartConnection CandleStick -> bool) :
  wf w -> connections w' = filter keep (connections w) ->
  nextId w' = nextId w -> wf w'.
Proof.
  intros [Hk Hi Ha] Ec En.
  assert (Ei : record_ids w'
               = map (fun e => oid (snd e)) (filter keep (connections w))).
  { unfold record_ids, JsMap.values. now rewrite Ec, map_map. }
  assert (Ei0 : record_ids w = map (fun e => oid (snd e)) (connections w)).
  { unfold record_ids, JsMap.values. now rewrite map_map. }
  rewrite Ei0 in *.
  split; rewrite ?Ei, ?En.
  - unfold JsMap.keys. rewrite Ec. now apply NoDup_map_filter.
  - now apply NoDup_map_filter.
  - intros id HIn. apply Ha. apply in_map_iff in HIn as (e & <- & HIn).
    apply filter_In in HIn as [HIn _].
    now apply (in_map (fun e => oid (snd e))).
Qed.

Lemma remove_nth_last {A : Type} (l : list A) (x : A) :
  remove_nth (List.length l) (l ++ [x]) = l.
Proof. induction l as [|a l IH]; cbn; congruence. Qed.

(** A pending timer that is due runs the sweep and leaves the list of
    timers. *)
Lemma fireTimer_due w (now : Z) (i : nat) (tm : Timer) :
  wf w -> nth_error (timers w) i = Some tm -> due tm <= now ->
  let w' := fireTimer w now i in
  connections w'
  = filter (fun kv => negb (sweepable now (captured_delay tm) (snd kv)))
      (connections w)
  /\ released w'
     = released w
       ++ map (fun e => release_of (snd e))
            (filter (fun e => sweepable now (captured_delay tm) (snd e))
               (connections w))
  /\ timers w' = remove_nth i (timers w)
  /\ nextId w' = nextId w.
Proof.
  intros Hwf Hnth Hdue. unfold fireTimer. rewrite Hnth.
  destruct (Z.leb_spec (due tm) now); [|lia].
  apply (sweep_spec (with_timers w (remove_nth i (timers w)))).
  apply Hwf.
Qed.

(** X7.  Running the sweep a second time at the same clock and with the
    same delay changes nothing: overlapping sweeps release no record twice
    and no further record. *)
Theorem sweep_twice_is_sweep_once w (now delay : Z) :
  wf w -> sweep (sweep w now delay) now delay = sweep w now delay.
Proof.
  intros Hwf.
  destruct (sweep_spec w now delay) as (Hc & Hr & Ht & Hn); [apply Hwf|].
  assert (Hwf1 : wf (sweep w now delay)) by (eapply wf_filter; eauto).
  destruct (sweep_spec (sweep w now delay) now delay)
    as (Hc2 & Hr2 & Ht2 & Hn2); [apply Hwf1|].
  apply world_ext; auto.
  - rewrite Hc2, Hc, filter_twice. apply filter_ext.
    intros a. now rewrite andb_diag.
  - rewrite Hr2, Hc, filter_twice.
    rewrite (filter_ext _ (fun _ => false)), filter_none.
    + cbn. now rewrite app_nil_r.
    + intros a. now destruct (sweepable now delay (snd a)).
Qed.

Lemma count_id_in_filter (keep : string * ChartConnection CandleStick -> bool)
    (m : JsMap.t (ChartConnection CandleStick)) key c :
  NoDup (map (fun e => oid (snd e)) m) ->
  In (key, c) m -> keep (key, c) = true ->
  List.length
    (filter (fun r => Nat.eqb (fst r) (oid c))
       (map (fun e => release_of (snd e)) (filter keep m))) = 1%nat.
Proof.
  intros Hnd HIn Hkeep.
  rewrite filter_map_swap, length_map. cbn [fst release_of].
  rewrite <- (length_map (fun e => oid (snd e))).
  rewrite <- (filter_map_swap (fun y => Nat.eqb y (oid c))
                (fun e : string * ChartConnection CandleStick => oid (snd e))).
  rewrite (count_NoDup Nat.eqb _ (oid c)).
  - assert (Hex : existsb (fun y => Nat.eqb y (oid c))
                    (map (fun e => oid (snd e)) (filter keep m)) = true).
    { apply existsb_exists. exists (oid c). split; [|apply Nat.eqb_refl].
      apply in_map_iff. exists (key, c). split; [reflexivity|].
      apply filter_In. auto. }
    now rewrite Hex.
  - intros y. apply Nat.eqb_eq.
  - now apply NoDup_map_filter.
Qed.

(** X8.  A record that is inactive, has a count of at most 0 and was last
    touched before [cleanupInactiveConnections] was called is removed, and
    its closure called once more than before, when the sweep scheduled by
    that call runs (at its due time or later), provided nothing touched the
    record in between. *)
Theorem scheduled_sweep_collects_stale_record
    w (t0 delay now : Z) exchange symbol timeframe c :
  wf w ->
  lookup w exchange symbol timeframe = Some c ->
  isActive c = false ->
  subscriptionCount c <= 0 ->
  lastUpdated c < t0 ->
  t0 + Z.max delay 0 <= now ->
  let w1 := cleanupInactiveConnections w t0 (Some delay) in
  let w2 := fireTimer w1 now (List.length (timers w)) in
  lookup w2 exchange symbol timeframe = None
  /\ In (release_of c) (released w2)
  /\ release_count (oid c) w2 = S (release_count (oid c) w)
  /\ timers w2 = timers w.
Proof.
  intros Hwf Hc Hina Hcnt Hold Hdue w1 w2.
  assert (Hs : sweepable now delay c = true).
  { unfold sweepable. rewrite Hina. cbn.
    apply andb_true_intro. split; [now apply Z.leb_le|apply Z.gtb_gt; lia]. }
  assert (Hwf1 : wf w1) by (destruct Hwf; now split).
  destruct (fireTimer_due w1 now (List.length (timers w))
              (mkTimer (t0 + Z.max delay 0) delay) Hwf1)
    as (Ec & Er & Et & _); auto.
  { cbn. rewrite nth_error_app2, Nat.sub_diag by lia. reflexivity. }
  fold w2 in Ec, Er, Et. cbn [captured_delay connections released timers w1
    cleanupInactiveConnections with_timers] in Ec, Er, Et.
  assert (HIn : In (generateKey exchange symbol timeframe, c) (connections w))
    by now apply JsMapFacts.get_In.
  split; [|split; [|split]].
  - unfold lookup in *. rewrite Ec, JsMapFacts.get_filter by apply Hwf.
    rewrite Hc. cbn [snd]. now rewrite Hs.
  - rewrite Er. apply in_or_app. right.
    apply in_map_iff. exists (generateKey exchange symbol timeframe, c).
    split; [reflexivity|]. apply filter_In. auto.
  - unfold release_count. rewrite Er, filter_app, length_app.
    rewrite (count_id_in_filter _ _ (generateKey exchange symbol timeframe));
      auto; [lia|].
    destruct Hwf as [_ Hids _]. unfold record_ids, JsMap.values in Hids.
    now rewrite map_map in Hids.
  - rewrite Et. apply remove_nth_last.
Qed.

(** X9.  A sweep that runs exactly when it is due does not remove a record
    touched at the instant the sweep was scheduled or later, whatever its
    count and [isActive]: the age is not greater than the delay.  The timer
    is used up, so that record waits for another sweep. *)
Theorem sweep_on_time_keeps_record_touched_at_scheduling
    w (t0 delay : Z) exchange symbol timeframe c :
  wf w ->
  lookup w exchange symbol timeframe = Some c ->
  t0 <= lastUpdated c ->
  0 <= delay ->
  let w1 := cleanupInactiveConnections w t0 (Some delay) in
  let w2 := fireTimer w1 (t0 + delay) (List.length (timers w)) in
  lookup w2 exchange symbol timeframe = Some c
  /\ ~ In (oid c) (map fst (skipn (List.length (released w)) (released w2)))
  /\ timers w2 = timers w.
Proof.
  intros Hwf Hc Htouch Hd w1 w2.
  assert (Hs : sweepable (t0 + delay) delay c = false).
  { unfold sweepable.
    destruct (Z.gtb_spec (t0 + delay - lastUpdated c) delay); [lia|].
    now rewrite andb_false_r. }
  assert (Hwf1 : wf w1) by (destruct Hwf; now split).
  destruct (fireTimer_due w1 (t0 + delay) (List.length (timers w))
              (mkTimer (t0 + Z.max delay 0) delay) Hwf1)
    as (Ec & Er & Et & _); auto.
  { cbn. rewrite nth_error_app2, Nat.sub_diag by lia. reflexivity. }
  { cbn. lia. }
  fold w2 in Ec, Er, Et. cbn [captured_delay connections released timers w1
    cleanupInactiveConnections with_timers] in Ec, Er, Et.
  split; [|split].
  - unfold lookup in *. rewrite Ec, JsMapFacts.get_filter by apply Hwf.
    rewrite Hc. cbn [snd]. now rewrite Hs.
  - rewrite Er, skipn_app, skipn_all, Nat.sub_diag. cbn [skipn app].
    rewrite map_map. intros HIn.
    apply in_map_iff in HIn as ([k v] & Hoid & HIn). cbn in Hoid.
    apply filter_In in HIn as [HIn Hsv]. cbn [snd] in Hsv.
    assert (HInc : In (generateKey exchange symbol timeframe, c)
                     (connections w))
      by now apply JsMapFacts.get_In.
    assert (E : (k, v) = (generateKey exchange symbol timeframe, c)).
    { apply (NoDup_map_eq (fun e => oid (snd e)) (connections w)); auto.
      destruct Hwf as [_ Hids _]. unfold record_ids, JsMap.values in Hids.
      now rewrite map_map in Hids. }
    injection E as -> ->. congruence.
  - rewrite Et. apply remove_nth_last.
Qed.

(** X10.  The status with grace period looks at the count and the age only.
    Right after a call that touches a record and leaves it a positive count
    it is true for [graceMs] ms (300 by default); once the last consumer has
    deactivated it is false for every grace; and after a deactivation to 0
    followed by a new registration it is true within the grace although
    [isConnectionActive] is false. *)
Theorem grace_period_status
    w (t : Z) exchange symbol timeframe c :
  lookup w exchange symbol timeframe = Some c ->
  (0 <= subscriptionCount c ->
   forall now graceMs,
     isConnectionActiveWithGracePeriod
       (activateConnection w t exchange symbol timeframe) now
       exchange symbol timeframe graceMs
     = (now - t <? match graceMs with Some g => g | None => 300 end))
  /\ (subscriptionCount c <= 1 ->
      forall now graceMs,
        isConnectionActiveWithGracePeriod
          (deactivateConnection w exchange symbol timeframe) now
          exchange symbol timeframe graceMs = false)
  /\ (subscriptionCount c = 1 ->
      forall D (R : callback) now graceMs,
        let w2 :=
          fst (registerConnection
                 (deactivateConnection w exchange symbol timeframe) t
                 exchange symbol timeframe D R) in
        isConnectionActiveWithGracePeriod w2 now
          exchange symbol timeframe graceMs
        = (now - t <? match graceMs with Some g => g | None => 300 end)
        /\ isConnectionActive w2 exchange symbol timeframe = false).
Proof.
  intros Hc. unfold lookup in Hc. split; [|split].
  - intros Hpos now graceMs.
    unfold isConnectionActiveWithGracePeriod, activateConnection.
    rewrite Hc. cbn [connections with_connections].
    rewrite JsMapFacts.get_set_same. cbn.
    destruct (Z.gtb_spec (subscriptionCount c + 1) 0); [reflexivity|lia].
  - intros Hle now graceMs.
    unfold isConnectionActiveWithGracePeriod, deactivateConnection.
    rewrite Hc. cbn [connections with_connections].
    rewrite JsMapFacts.get_set_same.
    cbn [subscriptionCount with_subscriptionCount].
    destruct (Z.leb_spec (subscriptionCount c - 1) 0); [|lia].
    cbn. destruct (Z.gtb_spec (subscriptionCount c - 1) 0); [lia|reflexivity].
  - intros Hone D R now graceMs w2. subst w2.
    unfold isConnectionActiveWithGracePeriod, isConnectionActive,
      registerConnection, deactivateConnection.
    rewrite Hc. cbn [connections with_connections subscriptionCount
                     with_subscriptionCount].
    rewrite Hone. cbn -[JsMap.get JsMap.set Z.ltb].
    rewrite !JsMapFacts.get_set_same. cbn -[JsMap.get JsMap.set Z.ltb].
    rewrite !JsMapFacts.get_set_same. cbn -[Z.ltb]. auto.
Qed.

Lemma wf_create w w' key c :
  wf w ->
  JsMap.get key (connections w) = None ->
  oid c = nextId w ->
  connections w' = connections w ++ [(key, c)] ->
  nextId w' = S (nextId w) ->
  wf w'.
Proof.
  intros [Hk Hi Ha] Hnone Hoid Ec En.
  assert (Ek : JsMap.keys (connections w')
               = JsMap.keys (connections w) ++ [key])
    by (unfold JsMap.keys; now rewrite Ec, map_app).
  assert (Ei : record_ids w' = record_ids w ++ [nextId w]).
  { unfold record_ids, JsMap.values. rewrite Ec, !map_app. cbn.
    now rewrite Hoid. }
  split; rewrite ?Ek, ?Ei, ?En.
  - apply NoDup_app; auto.
    + repeat constructor. intros [].
    + intros a HIn [<-|[]]. revert HIn. now apply JsMapFacts.get_None_keys.
  - apply NoDup_app; auto.
    + repeat constructor. intros [].
    + intros a HIn [<-|[]]. apply Ha in HIn. lia.
  - intros id HIn. apply in_app_or in HIn as [HIn|[<-|[]]]; [|lia].
    apply Ha in HIn. lia.
Qed.

Lemma wf_registerConnection w now exchange symbol timeframe
    (D : list CandleStick) (R : callback) :
  wf w -> wf (fst (registerConnection w now exchange symbol timeframe D R)).
Proof.
  intros Hwf. unfold registerConnection.
  destruct (JsMap.get (generateKey exchange symbol timeframe) (connections w))
    as [c|] eqn:Hget; cbn [fst].
  - now apply (wf_set w _ c).
  - apply (wf_create w _ (generateKey exchange symbol timeframe)
             (mkConnection (nextId w) symbol exchange timeframe D now true R 1));
      auto.
    cbn. now apply JsMapFacts.set_absent.
Qed.

Lemma wf_deactivateConnection w exchange symbol timeframe :
  wf w -> wf (deactivateConnection w exchange symbol timeframe).
Proof.
  intros Hwf. unfold deactivateConnection.
  destruct (JsMap.get (generateKey exchange symbol timeframe) (connections w))
    as [c|] eqn:Hget; auto.
  apply (wf_set w _ c); auto. now destruct (_ <=? 0).
Qed.

(** The sweep scheduled by [cleanupInactiveConnections], run when due,
    removes a record that is sweepable then. *)
Lemma scheduled_sweep_removes
    w (t0 now : Z) (delay : option Z) exchange symbol timeframe c :
  wf w ->
  lookup w exchange symbol timeframe = Some c ->
  let d := match delay with Some d => d | None => 5000 end in
  sweepable now d c = true ->
  t0 + Z.max d 0 <= now ->
  let w2 := fireTimer (cleanupInactiveConnections w t0 delay) now
              (List.length (timers w)) in
  lookup w2 exchange symbol timeframe = None
  /\ In (release_of c) (released w2)
  /\ nextId w2 = nextId w
  /\ timers w2 = timers w
  /\ wf w2.
Proof.
  intros Hwf Hc d Hs Hdue w2.
  set (w1 := cleanupInactiveConnections w t0 delay) in *.
  assert (Hwf1 : wf w1) by (destruct Hwf; now split).
  destruct (fireTimer_due w1 now (List.length (timers w))
              (mkTimer (t0 + Z.max d 0) d) Hwf1)
    as (Ec & Er & Et & En); auto.
  { cbn. rewrite nth_error_app2, Nat.sub_diag by lia. reflexivity. }
  fold w2 in Ec, Er, Et, En. cbn [captured_delay connections released timers
    nextId w1 cleanupInactiveConnections with_timers] in Ec, Er, Et, En.
  assert (HIn : In (generateKey exchange symbol timeframe, c) (connections w))
    by now apply JsMapFacts.get_In.
  split; [|split; [|split; [|split]]]; auto.
  - unfold lookup in *. rewrite Ec, JsMapFacts.get_filter by apply Hwf.
    rewrite Hc. cbn [snd]. now rewrite Hs.
  - rewrite Er. apply in_or_app. right.
    apply in_map_iff. exists (generateKey exchange symbol timeframe, c).
    split; [reflexivity|]. apply filter_In. auto.
  - rewrite Et. apply remove_nth_last.
  - now apply (wf_filter w _ _ Hwf Ec).
Qed.

End MoreSweep.

(** ** More of the hooks *)

Section MoreHooks.
Context {CandleStick : Type}.
Implicit Types (w : World CandleStick) (c : ChartConnection CandleStick).
Implicit Types (h : HookState CandleStick).
Implicit Types (exchange symbol timeframe : string).

Lemma timers_deactivateConnection w exchange symbol timeframe :
  timers (deactivateConnection w exchange symbol timeframe) = timers w.
Proof.
  unfold deactivateConnection. now destruct (JsMap.get _ _).
Qed.

Lemma timers_registerConnection w now exchange symbol timeframe
    (D : list CandleStick) (R : callback) :
  timers (fst (registerConnection w now exchange symbol timeframe D R))
  = timers w.
Proof.
  unfold registerConnection. now destruct (JsMap.get _ _).
Qed.

(** A mount for a key without a record: fetch, subscribe, register. *)
Lemma initializeChart_fresh w h (t0 t1 : Z) exchange symbol timeframe
    (D : list CandleStick) (R : callback) :
  lookup w exchange symbol timeframe = None ->
  initializeChart w h t0 exchange symbol timeframe (Returned D) (Returned R) t1
  = (fst (registerConnection w t1 exchange symbol timeframe D R),
     mkHook false D None false,
     [CallFetch exchange symbol timeframe 500; CallSubscribe; CallRegister]).
Proof.
  intros Hnone. unfold initializeChart, initializeChart_enter, getCachedData.
  unfold lookup in Hnone. now rewrite Hnone.
Qed.

(** X13.  A mount for a key whose record is active, has a positive count
    and is less than 30000 ms old takes the reuse branch: no fetch and no
    subscription, whatever they would have answered; the hook shows the
    cached data, and the record gains one consumer and a new [lastUpdated]. *)
Theorem initializeChart_reuses_active_connection
    w h (now now' : Z) exchange symbol timeframe c
    (fetched : outcome (list CandleStick)) (subscribed : outcome callback) :
  lookup w exchange symbol timeframe = Some c ->
  isActive c = true ->
  0 < subscriptionCount c ->
  now - lastUpdated c < 30000 ->
  let w' := activateConnection w now exchange symbol timeframe in
  initializeChart w h now exchange symbol timeframe fetched subscribed now'
  = (w', mkHook false (lastData c) None true, [CallActivate])
  /\ lookup w' exchange symbol timeframe
     = Some (with_lastUpdated
               (with_isActive
                  (with_subscriptionCount c (subscriptionCount c + 1)) true)
               now)
  /\ getSubscriptionCount w' exchange symbol timeframe
     = subscriptionCount c + 1
  /\ released w' = released w.
Proof.
  intros Hc Hact Hpos Hfresh w'. unfold lookup in Hc.
  assert (Hl : lookup w' exchange symbol timeframe
               = Some (with_lastUpdated
                         (with_isActive
                            (with_subscriptionCount c (subscriptionCount c + 1))
                            true) now)).
  { subst w'. unfold activateConnection. rewrite Hc. apply lookup_set_same. }
  split; [|split; [exact Hl|split]].
  - unfold initializeChart, initializeChart_enter, getCachedData,
      isConnectionActive.
    rewrite Hc, Hact.
    destruct (Z.ltb_spec (now - lastUpdated c) 30000); [|lia].
    destruct (Z.gtb_spec (subscriptionCount c) 0); [|lia].
    reflexivity.
  - unfold getSubscriptionCount. unfold lookup in Hl. rewrite Hl. cbn.
    destruct (Z.eqb_spec (subscriptionCount c + 1) 0); lia.
  - subst w'. unfold activateConnection. now rewrite Hc.
Qed.

(** What one unmount does to a record with count 1. *)
Lemma unmount_last_consumer w exchange symbol timeframe c :
  lookup w exchange symbol timeframe = Some c ->
  subscriptionCount c = 1 ->
  let w' := deactivateConnection w exchange symbol timeframe in
  lookup w' exchange symbol timeframe
  = Some (with_isActive (with_subscriptionCount c 0) false)
  /\ released w' = released w
  /\ nextId w' = nextId w.
Proof.
  intros Hc Hone. unfold lookup in Hc. cbn. unfold deactivateConnection.
  rewrite Hc, Hone. cbn -[JsMap.set]. repeat split. apply lookup_set_same.
Qed.

(** X14.  The life of a connection with one consumer.  A mount for a key
    without a record fetches, subscribes and registers (count 1, active);
    the unmount leaves count 0 and an inactive record and schedules a sweep
    5000 ms later; if the unmount came after the registration, that sweep
    removes the record and calls its closure; a mount after that fetches
    again and registers a new record object with count 1. *)
Theorem sole_consumer_lifecycle
    w h (t0 t1 t2 now : Z) exchange symbol timeframe
    (D : list CandleStick) (R : callback) :
  wf w ->
  lookup w exchange symbol timeframe = None ->
  t1 < t2 ->
  t2 + 5000 <= now ->
  let '(w1, h1, calls1) :=
    initializeChart w h t0 exchange symbol timeframe
      (Returned D) (Returned R) t1 in
  let w2 := unmountCleanup w1 t2 exchange symbol timeframe in
  let w3 := fireTimer w2 now (List.length (timers w)) in
  calls1 = [CallFetch exchange symbol timeframe 500;
            CallSubscribe; CallRegister]
  /\ getSubscriptionCount w1 exchange symbol timeframe = 1
  /\ isConnectionActive w1 exchange symbol timeframe = true
  /\ getSubscriptionCount w2 exchange symbol timeframe = 0
  /\ isConnectionActive w2 exchange symbol timeframe = false
  /\ released w2 = released w
  /\ lookup w3 exchange symbol timeframe = None
  /\ In (nextId w, R) (released w3)
  /\ forall h' (t3 t4 : Z) (D' : list CandleStick) (R' : callback),
       let '(w4, h4, calls4) :=
         initializeChart w3 h' t3 exchange symbol timeframe
           (Returned D') (Returned R') t4 in
       calls4 = [CallFetch exchange symbol timeframe 500;
                 CallSubscribe; CallRegister]
       /\ lookup w4 exchange symbol timeframe
          = Some (mkConnection (S (nextId w)) symbol exchange timeframe D' t4
                    true R' 1).
Proof.
  intros Hwf Hnone Hlt Hdue.
  rewrite (initializeChart_fresh w h t0 t1 _ _ _ D R Hnone).
  set (w1 := fst (registerConnection w t1 exchange symbol timeframe D R)).
  destruct (registerConnection_absent w t1 _ _ _ D R Hnone) as (H1 & Hr1).
  fold w1 in H1, Hr1.
  assert (Hn1 : nextId w1 = S (nextId w)).
  { subst w1. unfold registerConnection. unfold lookup in Hnone.
    now rewrite Hnone. }
  assert (Hwf1 : wf w1) by now apply wf_registerConnection.
  destruct (unmount_last_consumer w1 _ _ _ _ H1 eq_refl) as (H2 & Hr2 & Hn2).
  set (wd := deactivateConnection w1 exchange symbol timeframe) in *.
  assert (Hwfd : wf wd) by now apply wf_deactivateConnection.
  assert (Htd : timers wd = timers w).
  { subst wd w1.
    now rewrite timers_deactivateConnection, timers_registerConnection. }
  cbv zeta. unfold unmountCleanup. fold wd.
  destruct (scheduled_sweep_removes wd t2 now None _ _ _ _ Hwfd H2)
    as (H3 & HIn3 & Hn3 & _ & _).
  { unfold sweepable. cbn. apply Z.gtb_gt. lia. }
  { cbn. lia. }
  rewrite Htd in H3, HIn3, Hn3.
  set (w3 := fireTimer (cleanupInactiveConnections wd t2 None) now
               (List.length (timers w))) in *.
  unfold lookup in H1, H2.
  unfold getSubscriptionCount, isConnectionActive.
  cbn [connections cleanupInactiveConnections with_timers released].
  rewrite H1, H2. cbn [subscriptionCount isActive with_isActive
                       with_subscriptionCount].
  repeat split; auto; try congruence.
  intros h' t3 t4 D' R'.
  rewrite (initializeChart_fresh w3 h' t3 t4 _ _ _ D' R' H3).
  split; [reflexivity|].
  destruct (registerConnection_absent w3 t4 _ _ _ D' R' H3) as (H4 & _).
  rewrite H4, Hn3, Hn2, Hn1. reflexivity.
Qed.

(** X15.  [initializeChart] of [useChartTransitionManager] and the unmount.
    Entered after the unmount it does nothing at all.  When the hook was
    unmounted while the fetch was in flight, the fetched data, or the
    failure, is dropped: no state is set (so [isLoading] stays as the first
    block left it), [onSubscribe] is not called and nothing is registered.
    While the hook is mounted it does what [initializeChart] of
    [useChartTransition] does. *)
Theorem managed_initializeChart_guard
    w h (now : Z) exchange symbol timeframe
    (fetched : outcome (list CandleStick)) (subscribed : outcome callback) :
  managed_enter w h now false exchange symbol timeframe = Finished w h []
  /\ managed_resume w h now false exchange symbol timeframe fetched subscribed
     = (w, h, [])
  /\ managed_enter w h now true exchange symbol timeframe
     = initializeChart_enter w h now exchange symbol timeframe
  /\ managed_resume w h now true exchange symbol timeframe fetched subscribed
     = initializeChart_resume w h now exchange symbol timeframe
         fetched subscribed.
Proof.
  split; [reflexivity|split; [|split]].
  - unfold managed_resume. now destruct fetched.
  - unfold managed_enter, initializeChart_enter. cbn.
    destruct (getCachedData w now exchange symbol timeframe); [|reflexivity].
    now destruct (isConnectionActive w exchange symbol timeframe).
  - unfold managed_resume, initializeChart_resume.
    destruct fetched; [destruct subscribed|]; reflexivity.
Qed.

(** X16.  The unmount deactivates whether or not the mount has registered.
    With a record held by one other consumer and older than 30000 ms, a
    mount goes to the fetch without touching the manager; if it is unmounted
    before the fetch settles, the count of the other consumer drops to 0, and
    the sweep scheduled by the unmount removes the record and calls its
    closure. *)
Theorem unmount_before_fetch_settles_releases_shared_record
    w h (t0 t2 now : Z) exchange symbol timeframe c :
  wf w ->
  lookup w exchange symbol timeframe = Some c ->
  subscriptionCount c = 1 ->
  30000 <= t0 - lastUpdated c ->
  t0 <= t2 ->
  t2 + 5000 <= now ->
  initializeChart_enter w h t0 exchange symbol timeframe
  = AwaitingFetch (mkHook true (data h) None false)
      [CallFetch exchange symbol timeframe 500]
  /\ (let w1 := unmountCleanup w t2 exchange symbol timeframe in
      getSubscriptionCount w1 exchange symbol timeframe = 0
      /\ isConnectionActive w1 exchange symbol timeframe = false
      /\ released w1 = released w
      /\ let w2 := fireTimer w1 now (List.length (timers w)) in
         lookup w2 exchange symbol timeframe = None
         /\ In (release_of c) (released w2)).
Proof.
  intros Hwf Hc Hone Hstale Hle Hdue.
  destruct (unmount_last_consumer w _ _ _ _ Hc Hone) as (H2 & Hr2 & Hn2).
  set (wd := deactivateConnection w exchange symbol timeframe) in *.
  assert (Hwfd : wf wd) by now apply wf_deactivateConnection.
  assert (Htd : timers wd = timers w)
    by apply timers_deactivateConnection.
  split.
  - unfold initializeChart_enter, getCachedData. unfold lookup in Hc.
    rewrite Hc. destruct (Z.ltb_spec (t0 - lastUpdated c) 30000); [lia|].
    reflexivity.
  - cbv zeta. unfold unmountCleanup. fold wd.
    destruct (scheduled_sweep_removes wd t2 now None _ _ _ _ Hwfd H2)
      as (H3 & HIn3 & _).
    { unfold sweepable. cbn. apply Z.gtb_gt. lia. }
    { cbn. lia. }
    rewrite Htd in H3, HIn3.
    unfold getSubscriptionCount, isConnectionActive.
    cbn [connections cleanupInactiveConnections with_timers released].
    unfold lookup in H2. rewrite H2. cbn. auto.
Qed.

End MoreHooks.

(** ** The closures the manager calls *)

Section Closures.
Context {CandleStick : Type}.
Implicit Types (w : World CandleStick) (c : ChartConnection CandleStick).
Implicit Types (m : JsMap.t (ChartConnection CandleStick)).
Implicit Types (exchange symbol timeframe : string).

Lemma stored_set w key c c' :
  JsMap.get key (connections w) = Some c ->
  unsubscribe c' = unsubscribe c ->
  stored_callbacks (with_connections w (JsMap.set key c' (connections w)))
  = stored_callbacks w.
Proof.
  intros Hget Hu. unfold stored_callbacks, JsMap.values.
  cbn [connections with_connections]. rewrite !map_map.
  now apply (JsMapFacts.set_present _ _ c).
Qed.

Lemma stored_filter (cb : callback) p m :
  In cb (map unsubscribe (JsMap.values (filter p m))) ->
  In cb (map unsubscribe (JsMap.values m)).
Proof.
  unfold JsMap.values. rewrite !map_map, !in_map_iff.
  intros (e & He & HIn). apply filter_In in HIn as [HIn _]. eauto.
Qed.

Lemma released_of_filter (cb : callback) p m :
  In cb (map snd (map (fun e => release_of (snd e)) (filter p m))) ->
  In cb (map unsubscribe (JsMap.values m)).
Proof.
  unfold JsMap.values. rewrite !map_map, !in_map_iff.
  intros (e & He & HIn). apply filter_In in HIn as [HIn _].
  exists e. split; [exact He|exact HIn].
Qed.

(** A closure that is neither held by a record nor was ever called stays so
    through a call, unless the call is a [registerConnection] passing it. *)
Lemma callback_unused_step w (ev : Z * op CandleStick) (cb : callback) :
  ~ In cb (stored_callbacks w) ->
  ~ In cb (released_callbacks w) ->
  passes_callback cb [ev] = false ->
  ~ In cb (stored_callbacks (step w ev))
  /\ ~ In cb (released_callbacks (step w ev)).
Proof.
  intros Hs Hr Hp. destruct ev as [now o].
  cbn [passes_callback existsb snd] in Hp. rewrite orb_false_r in Hp.
  destruct o as [e s t d cb'|e s t d|e s t|e s t|e s t|delay|i|]; cbn [step].
  - apply Nat.eqb_neq in Hp. unfold registerConnection.
    destruct (JsMap.get (generateKey e s t) (connections w)) as [c|] eqn:Hget;
      cbn [fst].
    + now rewrite (stored_set w _ c).
    + split; [|exact Hr]. unfold stored_callbacks in *.
      cbn [connections]. rewrite (JsMapFacts.set_absent _ _ _ Hget).
      unfold JsMap.values. rewrite !map_app, in_app_iff. cbn.
      intros [HIn|[E|[]]]; [now apply Hs|congruence].
  - unfold updateCachedData.
    destruct (JsMap.get (generateKey e s t) (connections w)) as [c|] eqn:Hget;
      [|auto].
    now rewrite (stored_set w _ c).
  - unfold deactivateConnection.
    destruct (JsMap.get (generateKey e s t) (connections w)) as [c|] eqn:Hget;
      [|auto].
    rewrite (stored_set w _ c); auto. now destruct (_ <=? 0).
  - unfold activateConnection.
    destruct (JsMap.get (generateKey e s t) (connections w)) as [c|] eqn:Hget;
      [|auto].
    now rewrite (stored_set w _ c).
  - unfold removeConnection.
    destruct (JsMap.get (generateKey e s t) (connections w)) as [c|] eqn:Hget;
      [|auto].
    destruct (_ <=? 0); [|now rewrite (stored_set w _ c)].
    split.
    + unfold stored_callbacks in *. cbn [connections with_connections].
      intros HIn. apply Hs. unfold JsMap.delete in HIn.
      now apply stored_filter in HIn.
    + unfold released_callbacks in *. cbn. rewrite map_app, in_app_iff. cbn.
      intros [HIn|[E|[]]]; [now apply Hr|].
      apply Hs. unfold stored_callbacks, JsMap.values. rewrite map_map.
      apply in_map_iff. exists (generateKey e s t, c). split; [exact E|].
      now apply JsMapFacts.get_In.
  - auto.
  - unfold fireTimer. destruct (nth_error (timers w) i) as [tm|]; [|auto].
    destruct (due tm <=? now); [|auto].
    unfold sweep, JsMap.entries.
    destruct (sweep_loop now (captured_delay tm)
                (connections (with_timers w (remove_nth i (timers w))))
                (with_timers w (remove_nth i (timers w)))) as (Hc & Hrel & _).
    unfold stored_callbacks, released_callbacks in *.
    rewrite Hc, Hrel. cbn [connections released with_timers]. split.
    + intros HIn. apply Hs. now apply stored_filter in HIn.
    + rewrite map_app, in_app_iff. intros [HIn|HIn]; [now apply Hr|].
      apply Hs. now apply released_of_filter in HIn.
  - destruct (fold_call_unsubscribe (JsMap.values (connections w)) w)
      as (_ & Hrel & _).
    unfold stored_callbacks, released_callbacks, cleanupAll in *.
    cbn [connections released with_connections]. rewrite Hrel. split.
    + intros [].
    + rewrite map_app, in_app_iff. intros [HIn|HIn]; [now apply Hr|].
      apply Hs. unfold JsMap.values in *. rewrite !map_map in *.
      exact HIn.
Qed.

Lemma passes_callback_cons (cb : callback) (ev : Z * op CandleStick) evs :
  passes_callback cb (ev :: evs)
  = passes_callback cb [ev] || passes_callback cb evs.
Proof. cbn. now rewrite orb_false_r. Qed.

Lemma callback_unused_run w (evs : list (Z * op CandleStick)) (cb : callback) :
  ~ In cb (stored_callbacks w) ->
  ~ In cb (released_callbacks w) ->
  passes_callback cb evs = false ->
  ~ In cb (stored_callbacks (run evs w))
  /\ ~ In cb (released_callbacks (run evs w)).
Proof.
  revert w. unfold run.
  induction evs as [|ev evs IH]; intros w Hs Hr Hp; cbn [fold_left]; auto.
  rewrite passes_callback_cons in Hp.
  apply orb_false_elim in Hp as [Hev Hrest].
  destruct (callback_unused_step w ev cb Hs Hr Hev) as [Hs' Hr'].
  now apply IH.
Qed.

(** X11.  The closure passed to [registerConnection] for a key that already
    has a record is dropped for good: if no record held it and it was never
    called before, no later sequence of calls makes the manager call it,
    unless it is passed to [registerConnection] again. *)
Theorem dropped_closure_is_never_called
    w (now : Z) exchange symbol timeframe (D2 : list CandleStick)
    (R2 : callback) c (evs : list (Z * op CandleStick)) :
  lookup w exchange symbol timeframe = Some c ->
  ~ In R2 (stored_callbacks w) ->
  ~ In R2 (released_callbacks w) ->
  passes_callback R2 evs = false ->
  let w' := fst (registerConnection w now exchange symbol timeframe D2 R2) in
  ~ In R2 (stored_callbacks w')
  /\ ~ In R2 (released_callbacks (run evs w')).
Proof.
  intros Hc Hs Hr Hp w'. unfold lookup in Hc.
  assert (Hs' : ~ In R2 (stored_callbacks w')).
  { subst w'. unfold registerConnection. rewrite Hc. cbn [fst].
    now rewrite (stored_set w _ c). }
  assert (Hr' : ~ In R2 (released_callbacks w')).
  { subst w'. unfold registerConnection. now rewrite Hc. }
  split; [exact Hs'|]. now apply callback_unused_run.
Qed.

(** X12.  The subscription opened by a remount within the grace window is
    never closed.  In the situation of C1 (record registered with closure
    [R], deactivated once, remounted while the cache is fresh), the closure
    [R2] that [onSubscribe] returned at the remount is held by no record,
    and no later sequence of manager calls calls it. *)
Theorem remount_subscription_is_never_released
    w (h : HookState CandleStick) exchange symbol timeframe
    (t0 now now' : Z) (D D2 : list CandleStick) (R R2 : callback)
    (evs : list (Z * op CandleStick)) :
  lookup w exchange symbol timeframe = None ->
  now - t0 < 30000 ->
  R2 <> R ->
  ~ In R2 (stored_callbacks w) ->
  ~ In R2 (released_callbacks w) ->
  passes_callback R2 evs = false ->
  let w1 := fst (registerConnection w t0 exchange symbol timeframe D R) in
  let w2 := deactivateConnection w1 exchange symbol timeframe in
  let '(w3, h3, calls) :=
    initializeChart w2 h now exchange symbol timeframe
      (Returned D2) (Returned R2) now' in
  In CallSubscribe calls
  /\ ~ In R2 (stored_callbacks w3)
  /\ ~ In R2 (released_callbacks (run evs w3)).
Proof.
  intros Hnone Hfresh Hne Hs Hr Hp w1 w2.
  assert (Hs2 : ~ In R2 (stored_callbacks w2)
                /\ ~ In R2 (released_callbacks w2)).
  { apply (callback_unused_run w
             [(t0, OpRegister exchange symbol timeframe D R);
              (t0, OpDeactivate exchange symbol timeframe)] R2); auto.
    cbn. destruct (Nat.eqb_spec R R2); [congruence|reflexivity]. }
  destruct Hs2 as [Hs2 Hr2].
  destruct (registerConnection_absent w t0 _ _ _ D R Hnone) as (H1 & _).
  fold w1 in H1.
  destruct (deactivateConnection_found w1 _ _ _ _ H1)
    as (c2 & H2 & Hcnt & Hact & _). fold w2 in H2.
  cbn [subscriptionCount isActive] in Hcnt, Hact.
  assert (Hcache : getCachedData w2 now exchange symbol timeframe
                   = Some (lastData c2)).
  { pose proof H2 as H2'. subst w2 w1. revert H2'.
    unfold lookup, getCachedData, registerConnection, deactivateConnection.
    unfold lookup in Hnone. rewrite Hnone.
    cbn -[JsMap.get JsMap.set]. rewrite JsMapFacts.get_set_same.
    cbn -[JsMap.get JsMap.set]. rewrite JsMapFacts.get_set_same.
    intros [= <-]. cbn.
    destruct (Z.ltb_spec (now - t0) 30000); [reflexivity|lia]. }
  assert (Hinact : isConnectionActive w2 exchange symbol timeframe = false).
  { unfold isConnectionActive. unfold lookup in H2. rewrite H2, Hact.
    reflexivity. }
  unfold initializeChart, initializeChart_enter. rewrite Hcache, Hinact.
  cbn [initializeChart_resume app].
  assert (Hfinal :
            ~ In R2 (stored_callbacks
                       (fst (registerConnection w2 now' exchange symbol
                               timeframe D2 R2)))
            /\ ~ In R2 (released_callbacks
                          (run evs
                             (fst (registerConnection w2 now' exchange symbol
                                     timeframe D2 R2))))).
  { unfold lookup in H2.
    assert (Hs3 : ~ In R2 (stored_callbacks
                             (fst (registerConnection w2 now' exchange symbol
                                     timeframe D2 R2)))).
    { unfold registerConnection. rewrite H2. cbn [fst].
      now rewrite (stored_set w2 _ c2). }
    split; [exact Hs3|]. apply callback_unused_run; auto.
    unfold registerConnection. now rewrite H2. }
  split; [cbn; auto|exact Hfinal].
Qed.

End Closures.

(** ** More of the keys *)

Lemma string_app_assoc (a b c : string) :
  ((a ++ b) ++ c)%string = (a ++ (b ++ c))%string.
Proof. induction a as [|x a IH]; simpl; congruence. Qed.

(** X20.  [generateKey] does not separate its parts: a dash inside the
    exchange or the symbol moves the border.  The exchange [e-x] with symbol
    [s] and the exchange [e] with symbol [x-s] have one key, so a record
    registered for the first is the record found for the second. *)
Theorem generateKey_collision {CandleStick : Type}
    (w : World CandleStick) (now : Z) (e x s t : string)
    (D : list CandleStick) (R : callback) :
  generateKey (e ++ "-" ++ x) s t = generateKey e (x ++ "-" ++ s) t
  /\ (let w' := fst (registerConnection w now (e ++ "-" ++ x) s t D R) in
      lookup w' e (x ++ "-" ++ s) t = lookup w' (e ++ "-" ++ x) s t
      /\ lookup w' e (x ++ "-" ++ s) t <> None
      /\ getSubscriptionCount w' e (x ++ "-" ++ s) t
         = getSubscriptionCount w' (e ++ "-" ++ x) s t).
Proof.
  assert (E : generateKey (e ++ "-" ++ x) s t
              = generateKey e (x ++ "-" ++ s) t).
  { unfold generateKey. now rewrite !string_app_assoc. }
  split; [exact E|]. cbv zeta.
  unfold lookup, getSubscriptionCount. rewrite <- E.
  repeat split.
  unfold registerConnection.
  destruct (JsMap.get (generateKey (e ++ "-" ++ x) s t) (connections w));
    cbn [fst connections with_connections];
    rewrite JsMapFacts.get_set_same; discriminate.
Qed.

Lemma split_at_dash (a b x y : string) :
  has_dash a = false -> has_dash b = false ->
  (a ++ "-" ++ x)%string = (b ++ "-" ++ y)%string -> a = b /\ x = y.
Proof.
  revert b. induction a as [|ca a IH]; intros [|cb b]; cbn.
  - intros _ _ [= ->]. auto.
  - intros _ Hb [= <- _]. cbn in Hb. discriminate.
  - intros Ha _ [= -> _]. cbn in Ha. discriminate.
  - intros Ha Hb [= -> Hrest].
    apply orb_false_elim in Ha as [_ Ha]. apply orb_false_elim in Hb as [_ Hb].
    destruct (IH _ Ha Hb Hrest) as [-> ->]. auto.
Qed.

(** X21.  When neither exchange nor symbol holds a dash, the key names the
    instrument: two keys are equal only for the same exchange, symbol and
    timeframe, and registering one instrument leaves the record of every
    other instrument as it was. *)
Theorem generateKey_injective_without_dash {CandleStick : Type}
    (w : World CandleStick) (now : Z) (e1 s1 t1 e2 s2 t2 : string)
    (D : list CandleStick) (R : callback) :
  has_dash e1 = false -> has_dash s1 = false ->
  has_dash e2 = false -> has_dash s2 = false ->
  (generateKey e1 s1 t1 = generateKey e2 s2 t2 ->
   e1 = e2 /\ s1 = s2 /\ t1 = t2)
  /\ ((e1, s1, t1) <> (e2, s2, t2) ->
      lookup (fst (registerConnection w now e1 s1 t1 D R)) e2 s2 t2
      = lookup w e2 s2 t2).
Proof.
  intros He1 Hs1 He2 Hs2.
  assert (Hinj : generateKey e1 s1 t1 = generateKey e2 s2 t2 ->
                 e1 = e2 /\ s1 = s2 /\ t1 = t2).
  { unfold generateKey. intros Hk.
    destruct (split_at_dash _ _ _ _ He1 He2 Hk) as [-> Hrest].
    destruct (split_at_dash _ _ _ _ Hs1 Hs2 Hrest) as [-> ->]. auto. }
  split; [exact Hinj|]. intros Hne.
  apply (keyed_op_frame w now e1 s1 t1 D R (OpRegister e1 s1 t1 D R));
    [now left|].
  intros Hk. apply Hne. destruct (Hinj Hk) as (-> & -> & ->). reflexivity.
Qed.

(** ** The data service *)



Section DataServiceFacts.
Context {CandleStick : Type}.
Implicit Types (reg : DataService.Registry CandleStick).
Implicit Types (ex : DataService.ExchangeModule CandleStick).


(** X18.  Whatever goes wrong inside [getSymbols], [fetchData] or
    [fetchHistoricalData], the caller sees an [Error], never another thrown
    value; its message starts with the operation and the exchange or symbol
    and ends with the message of the cause, or with [Unknown error] when the
    cause was not an [Error]. *)
Theorem data_service_wraps_failures reg (exchange symbol timeframe : string)
    (limit : option Z) (startTime endTime : Z) ex (cause : thrown) :
  JsMap.get (toLowerCase exchange) reg = Some ex ->
  (DataService.ex_getSymbols ex = Threw cause ->
   DataService.getSymbols reg exchange
   = Threw (ThrownError
              ("Failed to fetch symbols for " ++ exchange ++ ": "
               ++ DataService.messageOf cause)%string))
  /\ (DataService.ex_fetchData ex symbol timeframe
        (match limit with Some l => l | None => 500 end) = Threw cause ->
      DataService.fetchData reg exchange symbol timeframe limit
      = Threw (ThrownError
                 ("Failed to fetch data for " ++ symbol ++ ": "
                  ++ DataService.messageOf cause)%string))
  /\ (DataService.ex_fetchHistoricalData ex symbol timeframe startTime endTime
      = Threw cause ->
      DataService.fetchHistoricalData reg exchange symbol timeframe
        startTime endTime
      = Threw (ThrownError
                 ("Failed to fetch historical data for " ++ symbol ++ ": "
                  ++ DataService.messageOf cause)%string))
  /\ DataService.messageOf ThrownOther = "Unknown error"%string
  /\ forall m, DataService.messageOf (ThrownError m) = m.
Proof.
  intros Hex.
  unfold DataService.getSymbols, DataService.fetchData,
    DataService.fetchHistoricalData, DataService.getExchange.
  rewrite Hex. repeat split; try (now intros ->).
Qed.

(** X19.  The data service finds the exchange whatever the letter case of
    its name, while the manager does not: for two spellings of one exchange
    that differ in letter case, the same module is found, [fetchData] and
    [fetchHistoricalData] answer the same when the exchange is in the
    registry, and yet the two spellings are two keys of the manager. *)
Theorem exchange_resolution_ignores_case reg (e1 e2 symbol timeframe : string)
    (limit : option Z) (startTime endTime : Z) :
  same_ignoring_case e1 e2 ->
  (forall ex,
     DataService.getExchange reg e1 = Returned ex <->
     DataService.getExchange reg e2 = Returned ex)
  /\ (JsMap.get (toLowerCase e1) reg <> None ->
      DataService.fetchData reg e1 symbol timeframe limit
      = DataService.fetchData reg e2 symbol timeframe limit
      /\ DataService.fetchHistoricalData reg e1 symbol timeframe
           startTime endTime
         = DataService.fetchHistoricalData reg e2 symbol timeframe
             startTime endTime)
  /\ (e1 <> e2 ->
      generateKey e1 symbol timeframe <> generateKey e2 symbol timeframe).
Proof.
  unfold same_ignoring_case. intros Hcase.
  unfold DataService.fetchData, DataService.fetchHistoricalData,
    DataService.getExchange.
  rewrite <- Hcase. split; [|split].
  - intros ex. destruct (JsMap.get (toLowerCase e1) reg); split;
      intros H; inversion H; reflexivity.
  - destruct (JsMap.get (toLowerCase e1) reg); [auto|congruence].
  - intros Hne Hk. apply Hne.
    now destruct (generateKey_same_case_inj e1 symbol e2 symbol timeframe
                    Hcase eq_refl Hk).
Qed.


End DataServiceFacts.

(** ** The statements at concrete managers *)

Local Open Scope string_scope.

Lemma wf_demo_pending : wf demo_pending.
Proof.
  split; cbn.
  - repeat constructor; cbn; intuition discriminate.
  - repeat constructor; cbn; intuition discriminate.
  - intros id [<-|[<-|[]]]; lia.
Defined.

(** The ledger at work: the pending sweep of [demo_pending] releases the
    deactivated record, a later [cleanupAll] the other one, each once. *)
Example release_counts_after_sweep_and_cleanupAll :
  let w := run [(3300, OpFireTimer 0); (3400, OpCleanupAll)] demo_pending in
  released (fireTimer demo_pending 3300 0) = [(0%nat, 7%nat)]
  /\ released w = [(0%nat, 7%nat); (1%nat, 9%nat)]
  /\ release_count 0 w = 1%nat /\ release_count 1 w = 1%nat
  /\ release_count 2 w = 0%nat.
Proof. repeat split. Qed.

(** C1 at a concrete manager: the record of [binance-BTCUSDT-1m] was
    registered at 1000 and deactivated; at 1050 the cache is fresh and the
    record is in the map, yet the remount calls the fetch and leaves
    [isActive] false. *)
Lemma remount_within_grace_counterexample :
  let res :=
    initializeChart demo_deactivated (hook_init []) 1050
      "binance" "BTCUSDT" "1m" (Returned [3]) (Returned 8%nat) 1060 in
  getSubscriptionCount demo_deactivated "binance" "BTCUSDT" "1m" = 0
  /\ option_map isActive (lookup demo_deactivated "binance" "BTCUSDT" "1m")
     = Some false
  /\ getCachedData demo_deactivated 1050 "binance" "BTCUSDT" "1m"
     = Some [1; 2]
  /\ ~ (existsb is_fetch (snd res) = false
        /\ getSubscriptionCount (fst (fst res)) "binance" "BTCUSDT" "1m" = 1
        /\ option_map isActive
             (lookup (fst (fst res)) "binance" "BTCUSDT" "1m") = Some true).
Proof.
  cbv zeta. repeat split. intros (Hfetch & _). vm_compute in Hfetch.
  discriminate.
Qed.

Lemma remount_within_grace_refetches_witness :
  lookup (@init Z) "binance" "BTCUSDT" "1m" = None
  /\ 1050 - 1000 < 30000
  /\ isConnectionActive demo_deactivated "binance" "BTCUSDT" "1m" = false
  /\ snd (initializeChart demo_deactivated (hook_init []) 1050
            "binance" "BTCUSDT" "1m" (Returned [3]) (Returned 8%nat) 1060)
     = [CallFetch "binance" "BTCUSDT" "1m" 500; CallSubscribe; CallRegister].
Proof.
  split; [reflexivity|]. split; [lia|].
  pose proof (remount_within_grace_refetches (@init Z) (hook_init [])
                "binance" "BTCUSDT" "1m" 1000 1050 1060 [1; 2] [3]
                7%nat 8%nat eq_refl eq_refl) as (_ & _ & Hact & Hrun).
  split; [exact Hact|].
  apply Hrun.
Defined.

(** C3 at a concrete sequence: one registration and two deactivations leave
    the count at -1. *)
Lemma count_nonneg_counterexample :
  getSubscriptionCount (run demo_over_deactivated init)
    "binance" "BTCUSDT" "1m" = -1
  /\ ~ (forall (evs : list (Z * op Z)) exchange symbol timeframe,
          0 <= getSubscriptionCount (run evs init) exchange symbol timeframe).
Proof.
  split; [reflexivity|]. intros H.
  specialize (H demo_over_deactivated "binance" "BTCUSDT" "1m"%string).
  vm_compute in H. now apply H.
Qed.

Lemma count_nonneg_when_deactivations_matched_witness :
  counts_nonneg (@init Z)
  /\ deactivations_matched demo_over_removed init = true
  /\ 0 <= getSubscriptionCount (run demo_over_removed init)
            "binance" "BTCUSDT" "1m".
Proof.
  split; [constructor|]. split; [reflexivity|].
  apply (count_nonneg_when_deactivations_matched init demo_over_removed);
    [constructor|reflexivity].
Defined.

(** C4 at a concrete manager: the record registered as [binance], [BTCUSDT]
    is not the record looked up as [Binance], [btcusdt]. *)
Lemma key_equality_counterexample :
  same_ignoring_case "binance" "Binance"
  /\ same_ignoring_case "BTCUSDT" "btcusdt"
  /\ getSubscriptionCount demo_registered "binance" "BTCUSDT" "1m" = 1
  /\ getSubscriptionCount demo_registered "Binance" "btcusdt" "1m" = 0
  /\ ~ (forall (w : World Z) now e1 s1 e2 s2 t D R,
          same_ignoring_case e1 e2 -> same_ignoring_case s1 s2 ->
          let w' := fst (registerConnection w now e1 s1 t D R) in
          getSubscriptionCount w' e2 s2 t = getSubscriptionCount w' e1 s1 t).
Proof.
  repeat split. intros H.
  specialize (H init 1000 "binance" "BTCUSDT" "Binance" "btcusdt" "1m"
                [1; 2] 7%nat eq_refl eq_refl)%string.
  vm_compute in H. discriminate.
Qed.

Lemma key_equality_is_case_sensitive_witness :
  same_ignoring_case "binance" "Binance"
  /\ same_ignoring_case "BTCUSDT" "btcusdt"
  /\ generateKey "binance" "BTCUSDT" "1m" <> generateKey "Binance" "btcusdt" "1m"
  /\ lookup demo_registered "Binance" "btcusdt" "1m" = lookup (@init Z) "Binance" "btcusdt" "1m".
Proof.
  split; [reflexivity|]. split; [reflexivity|].
  pose proof (key_equality_is_case_sensitive (@init Z) 1000
                "binance" "BTCUSDT" "Binance" "btcusdt" "1m" [1; 2] 7%nat
                eq_refl eq_refl)%string as (Hiff & Hframe).
  split.
  - intros Hk. apply Hiff in Hk. destruct Hk as [Hk _]. discriminate Hk.
  - apply Hframe. intros [Hk _]. discriminate Hk.
Defined.

Lemma deactivateConnection_hysteresis_witness :
  lookup (@init Z) "binance" "BTCUSDT" "1m" = None
  /\ getSubscriptionCount
       (deactivate_times 3
          (fold_left (acquire_step "binance" "BTCUSDT" "1m")
             [ByActivate 1100; ByRegister 1200 [5] 9%nat]
             demo_registered)
          "binance" "BTCUSDT" "1m")
       "binance" "BTCUSDT" "1m" = 0.
Proof.
  split; [reflexivity|].
  apply (deactivateConnection_hysteresis (@init Z) 1000
           "binance" "BTCUSDT" "1m" [1; 2] 7%nat
           [ByActivate 1100; ByRegister 1200 [5] 9%nat] eq_refl).
Defined.

Lemma sweep_condition_and_reactivation_witness :
  wf demo_pending
  /\ nth_error (timers demo_pending) 0 = Some (mkTimer 3201 2000)
  /\ 3201 <= 3300
  /\ released (fireTimer demo_pending 3300 0) = [(0%nat, 7%nat)]
  /\ lookup
       (fireTimer (activateConnection demo_pending 1500
                     "binance" "BTCUSDT" "1m") 3300 0)
       "binance" "BTCUSDT" "1m"
     = lookup (activateConnection demo_pending 1500 "binance" "BTCUSDT" "1m")
         "binance" "BTCUSDT" "1m".
Proof.
  split; [exact wf_demo_pending|]. split; [reflexivity|]. split; [lia|].
  pose proof (sweep_condition_and_reactivation demo_pending 3300 0
                (mkTimer 3201 2000) wf_demo_pending eq_refl)
    as Hsweep.
  destruct Hsweep as (_ & _ & _ & Hrel & Hact); [cbn; lia|].
  split; [exact Hrel|].
  exact (proj1 (Hact "binance" "BTCUSDT" "1m"%string 1500 _ eq_refl)).
Defined.

Lemma registerConnection_existing_record_witness :
  lookup demo_registered "binance" "BTCUSDT" "1m" <> None
  /\ getSubscriptionCount
       (fst (registerConnection demo_registered 1500
               "binance" "BTCUSDT" "1m" [9] 8%nat))
       "binance" "BTCUSDT" "1m" = 2
  /\ released
       (cleanupAll
          (fst (registerConnection demo_registered 1500
                  "binance" "BTCUSDT" "1m" [9] 8%nat)))
     = [(0%nat, 7%nat)].
Proof.
  split; [discriminate|].
  pose proof (registerConnection_existing_record demo_registered 1500
                "binance" "BTCUSDT" "1m" [9] 8%nat _ eq_refl)
    as (_ & _ & _ & _ & _ & Hcount & _ & _ & _ & Hall).
  split; [exact Hcount|exact Hall].
Defined.

Lemma getCachedData_freshness_window_witness :
  getCachedData demo_deactivated 30999 "binance" "BTCUSDT" "1m" = Some [1; 2]
  /\ getCachedData demo_deactivated 31000 "binance" "BTCUSDT" "1m" = None
  /\ lookup demo_deactivated "binance" "BTCUSDT" "1m" <> None.
Proof.
  pose proof (getCachedData_freshness_window demo_deactivated 30999
                "binance" "BTCUSDT" "1m") as (Hiff & _).
  pose proof (getCachedData_freshness_window demo_deactivated 31000
                "binance" "BTCUSDT" "1m") as (_ & Hstale).
  split; [|split; [|discriminate]].
  - apply Hiff. eexists. split; [reflexivity|]. split; [cbn; lia|reflexivity].
  - apply (Hstale _ eq_refl). cbn. lia.
Defined.

Lemma fetch_failure_leaves_registry_unchanged_witness :
  initializeChart_enter demo_deactivated (hook_init []) 1050
    "binance" "BTCUSDT" "1m"
  = AwaitingFetch (mkHook true [] None false)
      [CallFetch "binance" "BTCUSDT" "1m" 500]
  /\ initializeChart demo_deactivated (hook_init []) 1050
       "binance" "BTCUSDT" "1m" (Threw (ThrownError "timeout"))
       (Returned 8%nat) 1060
     = (demo_deactivated, mkHook false [] (Some "timeout"%string) false,
        [CallFetch "binance" "BTCUSDT" "1m" 500]).
Proof.
  split; [reflexivity|].
  apply (fetch_failure_leaves_registry_unchanged demo_deactivated
           (hook_init []) 1050 "binance" "BTCUSDT" "1m" _ _
           demo_pending 1060 (ThrownError "timeout") (Returned 8%nat)
           eq_refl).
Defined.

Lemma registerConnection_existing_keeps_isActive_witness :
  lookup demo_registered "binance" "BTCUSDT" "1m" <> None
  /\ isConnectionActive
       (fst (registerConnection demo_deactivated 1500
               "binance" "BTCUSDT" "1m" [9] 8%nat))
       "binance" "BTCUSDT" "1m" = false
  /\ getSubscriptionCount
       (fst (registerConnection demo_deactivated 1500
               "binance" "BTCUSDT" "1m" [9] 8%nat))
       "binance" "BTCUSDT" "1m" = 1.
Proof.
  split; [discriminate|].
  pose proof (registerConnection_existing_keeps_isActive demo_registered 1500
                "binance" "BTCUSDT" "1m" [9] 8%nat _ eq_refl)
    as (_ & Hre).
  destruct (Hre eq_refl) as (_ & _ & Hact & Hcount).
  split; [exact Hact|exact Hcount].
Defined.

(** ** The further statements at concrete managers *)

Lemma wf_demo_deactivated : wf demo_deactivated.
Proof.
  split; cbn.
  - repeat constructor; cbn; intuition discriminate.
  - repeat constructor; cbn; intuition discriminate.
  - intros id [<-|[]]; lia.
Defined.

Lemma wf_demo_registered : wf demo_registered.
Proof.
  split; cbn.
  - repeat constructor; cbn; intuition discriminate.
  - repeat constructor; cbn; intuition discriminate.
  - intros id [<-|[]]; lia.
Defined.

Lemma wf_init_Z : wf (@init Z).
Proof.
  split; cbn; [constructor|constructor|intros id []].
Defined.

Lemma record_only_created_by_registerConnection_witness :
  lookup demo_registered "kraken" "ETHUSD" "5m" = None
  /\ lookup
       (run [ (1100, OpUpdateCachedData "kraken" "ETHUSD" "5m" [3]);
              (1200, OpActivate "kraken" "ETHUSD" "5m");
              (1300, OpRegister "binance" "BTCUSDT" "1m" [4] 8%nat);
              (1400, OpRemove "binance" "BTCUSDT" "1m") ] demo_registered)
       "kraken" "ETHUSD" "5m" = None.
Proof.
  split; [reflexivity|].
  apply (record_only_created_by_registerConnection demo_registered
           [ (1100, OpUpdateCachedData "kraken" "ETHUSD" "5m" [3]);
             (1200, OpActivate "kraken" "ETHUSD" "5m");
             (1300, OpRegister "binance" "BTCUSDT" "1m" [4] 8%nat);
             (1400, OpRemove "binance" "BTCUSDT" "1m") ]
           "kraken" "ETHUSD" "5m" eq_refl eq_refl).
Defined.

Lemma registerConnection_new_record_witness :
  lookup (@init Z) "binance" "BTCUSDT" "1m" = None
  /\ getSubscriptionCount demo_registered "binance" "BTCUSDT" "1m" = 1
  /\ getCachedData demo_registered 30999 "binance" "BTCUSDT" "1m"
     = Some [1; 2].
Proof.
  split; [reflexivity|].
  pose proof (registerConnection_new_record (@init Z) 1000
                "binance" "BTCUSDT" "1m" [1; 2] 7%nat eq_refl)
    as (Hcount & _ & Hfresh & _).
  split; [exact Hcount|]. apply Hfresh. lia.
Defined.

Lemma updateCachedData_round_trip_witness :
  lookup demo_deactivated "binance" "BTCUSDT" "1m" <> None
  /\ getCachedData demo_deactivated 40000 "binance" "BTCUSDT" "1m" = None
  /\ getCachedData
       (updateCachedData demo_deactivated 40000 "binance" "BTCUSDT" "1m"
          [7; 8])
       69999 "binance" "BTCUSDT" "1m" = Some [7; 8].
Proof.
  split; [discriminate|]. split; [reflexivity|].
  pose proof (updateCachedData_round_trip demo_deactivated 40000
                "binance" "BTCUSDT" "1m" [7; 8] _ eq_refl)
    as (_ & Hfresh & _).
  apply Hfresh. lia.
Defined.

Lemma removeConnection_last_consumer_witness :
  lookup demo_registered "binance" "BTCUSDT" "1m" <> None
  /\ lookup (removeConnection demo_registered "binance" "BTCUSDT" "1m")
       "binance" "BTCUSDT" "1m" = None
  /\ released (removeConnection demo_registered "binance" "BTCUSDT" "1m")
     = [(0%nat, 7%nat)].
Proof.
  split; [discriminate|].
  pose proof (removeConnection_last_consumer demo_registered
                "binance" "BTCUSDT" "1m" _ eq_refl)
    as Hrm.
  destruct Hrm as (Hgone & Hrel & _); [cbn; lia|].
  split; [exact Hgone|exact Hrel].
Defined.

Lemma removeConnection_shared_is_deactivateConnection_witness :
  let w :=
    fst (registerConnection demo_registered 1500 "binance" "BTCUSDT" "1m"
           [9] 8%nat) in
  getSubscriptionCount w "binance" "BTCUSDT" "1m" = 2
  /\ removeConnection w "binance" "BTCUSDT" "1m"
     = deactivateConnection w "binance" "BTCUSDT" "1m".
Proof.
  cbv zeta. split; [reflexivity|].
  pose proof (removeConnection_shared_is_deactivateConnection
                (fst (registerConnection demo_registered 1500
                        "binance" "BTCUSDT" "1m" [9] 8%nat))
                "binance" "BTCUSDT" "1m" _ eq_refl) as Hsh.
  destruct Hsh as (Heq & _); [cbn; lia|]. exact Heq.
Defined.

Lemma sweep_twice_is_sweep_once_witness :
  wf demo_pending
  /\ sweep (sweep demo_pending 3300 2000) 3300 2000
     = sweep demo_pending 3300 2000.
Proof.
  split; [exact wf_demo_pending|].
  apply (sweep_twice_is_sweep_once demo_pending 3300 2000 wf_demo_pending).
Defined.

Lemma scheduled_sweep_collects_stale_record_witness :
  wf demo_deactivated
  /\ 1000 < 1200 /\ 1200 + Z.max 2000 0 <= 3200
  /\ lookup
       (fireTimer (cleanupInactiveConnections demo_deactivated 1200
                     (Some 2000)) 3200 0)
       "binance" "BTCUSDT" "1m" = None.
Proof.
  split; [exact wf_demo_deactivated|]. split; [lia|]. split; [cbn; lia|].
  pose proof (scheduled_sweep_collects_stale_record demo_deactivated
                1200 2000 3200 "binance" "BTCUSDT" "1m" _
                wf_demo_deactivated eq_refl eq_refl) as Hsw.
  destruct Hsw as (Hgone & _); cbn; try lia. exact Hgone.
Defined.

Lemma sweep_on_time_keeps_record_touched_at_scheduling_witness :
  wf demo_deactivated
  /\ isConnectionActive demo_deactivated "binance" "BTCUSDT" "1m" = false
  /\ lookup
       (fireTimer (cleanupInactiveConnections demo_deactivated 1000
                     (Some 2000)) (1000 + 2000) 0)
       "binance" "BTCUSDT" "1m"
     = lookup demo_deactivated "binance" "BTCUSDT" "1m"
  /\ timers
       (fireTimer (cleanupInactiveConnections demo_deactivated 1000
                     (Some 2000)) (1000 + 2000) 0) = [].
Proof.
  split; [exact wf_demo_deactivated|]. split; [reflexivity|].
  pose proof (sweep_on_time_keeps_record_touched_at_scheduling
                demo_deactivated 1000 2000 "binance" "BTCUSDT" "1m" _
                wf_demo_deactivated eq_refl) as Hkeep.
  destruct Hkeep as (Hstays & _ & Htimers); cbn; try lia.
  split; [exact Hstays|exact Htimers].
Defined.

Lemma grace_period_status_witness :
  lookup demo_registered "binance" "BTCUSDT" "1m" <> None
  /\ isConnectionActiveWithGracePeriod
       (activateConnection demo_registered 1500 "binance" "BTCUSDT" "1m")
       1799 "binance" "BTCUSDT" "1m" None = true
  /\ isConnectionActiveWithGracePeriod
       (activateConnection demo_registered 1500 "binance" "BTCUSDT" "1m")
       1800 "binance" "BTCUSDT" "1m" None = false
  /\ isConnectionActiveWithGracePeriod demo_deactivated 1000
       "binance" "BTCUSDT" "1m" (Some 1000000) = false.
Proof.
  split; [discriminate|].
  pose proof (grace_period_status demo_registered 1500
                "binance" "BTCUSDT" "1m" _ eq_refl)
    as (Hafter & Hlast & _).
  split; [|split].
  - rewrite Hafter; [reflexivity|cbn; lia].
  - rewrite Hafter; [reflexivity|cbn; lia].
  - apply Hlast. cbn. lia.
Defined.

Lemma dropped_closure_is_never_called_witness :
  lookup demo_registered "binance" "BTCUSDT" "1m" <> None
  /\ ~ In 8%nat (stored_callbacks demo_registered)
  /\ ~ In 8%nat
       (released_callbacks
          (run [ (2000, OpDeactivate "binance" "BTCUSDT" "1m");
                 (2100, OpRemove "binance" "BTCUSDT" "1m");
                 (2200, OpCleanupAll) ]
             (fst (registerConnection demo_registered 1500
                     "binance" "BTCUSDT" "1m" [9] 8%nat)))).
Proof.
  split; [discriminate|].
  assert (Hs : ~ In 8%nat (stored_callbacks demo_registered)).
  { cbn. intros [H|[]]. discriminate H. }
  split; [exact Hs|].
  apply (dropped_closure_is_never_called demo_registered 1500
           "binance" "BTCUSDT" "1m" [9] 8%nat _
           [ (2000, OpDeactivate "binance" "BTCUSDT" "1m");
             (2100, OpRemove "binance" "BTCUSDT" "1m");
             (2200, OpCleanupAll) ] eq_refl Hs);
    [intros []|reflexivity].
Defined.

Lemma remount_subscription_is_never_released_witness :
  lookup (@init Z) "binance" "BTCUSDT" "1m" = None
  /\ 8%nat <> 7%nat
  /\ ~ In 8%nat
       (released_callbacks
          (run [ (2000, OpDeactivate "binance" "BTCUSDT" "1m");
                 (9000, OpCleanupInactive None);
                 (15000, OpFireTimer 0);
                 (16000, OpCleanupAll) ]
             (fst (fst (initializeChart demo_deactivated (hook_init []) 1050
                          "binance" "BTCUSDT" "1m" (Returned [3])
                          (Returned 8%nat) 1060))))).
Proof.
  split; [reflexivity|]. split; [discriminate|].
  apply (remount_subscription_is_never_released (@init Z) (hook_init [])
           "binance" "BTCUSDT" "1m" 1000 1050 1060 [1; 2] [3] 7%nat 8%nat
           [ (2000, OpDeactivate "binance" "BTCUSDT" "1m");
             (9000, OpCleanupInactive None);
             (15000, OpFireTimer 0);
             (16000, OpCleanupAll) ] eq_refl);
    [lia|discriminate|intros []|intros []|reflexivity].
Defined.

Lemma initializeChart_reuses_active_connection_witness :
  isConnectionActive demo_registered "binance" "BTCUSDT" "1m" = true
  /\ 1500 - 1000 < 30000
  /\ snd (initializeChart demo_registered (hook_init []) 1500
            "binance" "BTCUSDT" "1m" (Threw ThrownOther) (Threw ThrownOther)
            1600)
     = [CallActivate]
  /\ getSubscriptionCount
       (fst (fst (initializeChart demo_registered (hook_init []) 1500
                    "binance" "BTCUSDT" "1m" (Threw ThrownOther)
                    (Threw ThrownOther) 1600)))
       "binance" "BTCUSDT" "1m" = 2.
Proof.
  split; [reflexivity|]. split; [lia|].
  pose proof (initializeChart_reuses_active_connection demo_registered
                (hook_init []) 1500 1600 "binance" "BTCUSDT" "1m" _
                (Threw ThrownOther) (Threw ThrownOther) eq_refl eq_refl)
    as Hreuse.
  destruct Hreuse as (Hrun & _ & Hcount & _); [cbn; lia|cbn; lia|].
  split; [exact (f_equal snd Hrun)|exact Hcount].
Defined.

Lemma sole_consumer_lifecycle_witness :
  wf (@init Z)
  /\ 1000 < 1200 /\ 1200 + 5000 <= 6200
  /\ released
       (fireTimer
          (unmountCleanup
             (fst (fst (initializeChart init (hook_init []) 900
                          "binance" "BTCUSDT" "1m" (Returned [1; 2])
                          (Returned 7%nat) 1000)))
             1200 "binance" "BTCUSDT" "1m")
          6200 0)
     = [(0%nat, 7%nat)]
  /\ In (0%nat, 7%nat)
       (released
          (fireTimer
             (unmountCleanup
                (fst (fst (initializeChart init (hook_init []) 900
                             "binance" "BTCUSDT" "1m" (Returned [1; 2])
                             (Returned 7%nat) 1000)))
                1200 "binance" "BTCUSDT" "1m")
             6200 0)).
Proof.
  split; [exact wf_init_Z|]. split; [lia|]. split; [lia|].
  split; [reflexivity|].
  pose proof (sole_consumer_lifecycle (@init Z) (hook_init []) 900 1000 1200
                6200 "binance" "BTCUSDT" "1m" [1; 2] 7%nat wf_init_Z eq_refl)
    as Hlife.
  cbv beta iota zeta in Hlife.
  destruct Hlife as (_ & _ & _ & _ & _ & _ & _ & HIn & _); try lia.
  exact HIn.
Defined.

Lemma unmount_before_fetch_settles_releases_shared_record_witness :
  wf demo_registered
  /\ getSubscriptionCount demo_registered "binance" "BTCUSDT" "1m" = 1
  /\ 30000 <= 31000 - 1000
  /\ lookup
       (fireTimer (unmountCleanup demo_registered 31050
                     "binance" "BTCUSDT" "1m") 36050 0)
       "binance" "BTCUSDT" "1m" = None.
Proof.
  split; [exact wf_demo_registered|]. split; [reflexivity|]. split; [lia|].
  pose proof (unmount_before_fetch_settles_releases_shared_record
                demo_registered (hook_init []) 31000 31050 36050
                "binance" "BTCUSDT" "1m" _ wf_demo_registered eq_refl eq_refl)
    as Hun.
  destruct Hun as (_ & _ & _ & _ & Hgone & _); cbn; try lia.
  exact Hgone.
Defined.


Lemma data_service_wraps_failures_witness :
  JsMap.get (toLowerCase "ByBit") demo_registry <> None
  /\ DataService.fetchData demo_registry "ByBit" "BTCUSDT" "1m" None
     = Threw (ThrownError "Failed to fetch data for BTCUSDT: HTTP 503").
Proof.
  split; [discriminate|].
  pose proof (data_service_wraps_failures demo_registry "ByBit" "BTCUSDT"
                "1m" None 0 0 _ (ThrownError "HTTP 503") eq_refl)
    as (_ & Hfetch & _).
  apply Hfetch. reflexivity.
Defined.

Lemma exchange_resolution_ignores_case_witness :
  same_ignoring_case "Binance" "binance"
  /\ DataService.fetchData demo_registry "Binance" "BTCUSDT" "1m" None
     = DataService.fetchData demo_registry "binance" "BTCUSDT" "1m" None
  /\ generateKey "Binance" "BTCUSDT" "1m" <> generateKey "binance" "BTCUSDT" "1m".
Proof.
  split; [reflexivity|].
  pose proof (exchange_resolution_ignores_case demo_registry
                "Binance" "binance" "BTCUSDT" "1m" None 0 0 eq_refl)
    as (_ & Hsame & Hkeys).
  split.
  - apply Hsame. discriminate.
  - apply Hkeys. discriminate.
Defined.

Lemma generateKey_injective_without_dash_witness :
  has_dash "binance" = false /\ has_dash "BTCUSDT" = false
  /\ has_dash "kraken" = false /\ has_dash "ETHUSD" = false
  /\ lookup demo_registered "kraken" "ETHUSD" "5m"
     = lookup (@init Z) "kraken" "ETHUSD" "5m".
Proof.
  repeat (split; [reflexivity|]).
  pose proof (generateKey_injective_without_dash (@init Z) 1000
                "binance" "BTCUSDT" "1m" "kraken" "ETHUSD" "5m" [1; 2] 7%nat
                eq_refl eq_refl eq_refl eq_refl) as (_ & Hframe).
  apply Hframe. discriminate.
Defined.

Lemma activate_then_deactivate_witness :
  lookup demo_deactivated "binance" "BTCUSDT" "1m" <> None
  /\ getSubscriptionCount
       (deactivateConnection
          (activateConnection demo_deactivated 1500 "binance" "BTCUSDT" "1m")
          "binance" "BTCUSDT" "1m")
       "binance" "BTCUSDT" "1m" = 0
  /\ option_map lastUpdated
       (lookup
          (deactivateConnection
             (activateConnection demo_deactivated 1500
                "binance" "BTCUSDT" "1m")
             "binance" "BTCUSDT" "1m")
          "binance" "BTCUSDT" "1m") = Some 1500.
Proof.
  split; [discriminate|].
  pose proof (activate_then_deactivate demo_deactivated 1500
                "binance" "BTCUSDT" "1m" _ eq_refl) as (Hl & _).
  unfold getSubscriptionCount. unfold lookup in Hl |- *. rewrite Hl.
  split; reflexivity.
Defined.

